(** * lalog: the Logger of lib/index.ts

    A shallow embedding of the logging facade of lib/index.ts: the level
    registry, the Logger constructor, [write] with its transient buffer,
    the timer helper and [formatMilliseconds].

    JavaScript objects are finite maps from property names to values, the
    module-level [currentLevelIndex] and every effect the module has on
    the outside (deliveries, replies, console output, identifiers and
    stack traces drawn from the runtime) live in an explicit [World]. *)

From stdpp Require Import gmap strings list fin_maps pretty.
From Stdlib Require Import ZArith Ascii.

Local Open Scope Z_scope.

(** ** JavaScript values *)

(** The values a log event can carry.  Numbers are the integer-valued
    ones; an [Error] instance is kept apart from a plain object because
    its [message] and [stack] are not enumerable. *)
#[warnings="-register-all"]
Inductive Value : Type :=
  | VUndefined
  | VNull
  | VBool (b : bool)
  | VNum (z : Z)
  | VStr (s : string)
  | VArr (items : list Value)
  | VObj (fields : gmap string Value)
  | VError (message : string) (stack : option string).

(** [!!v] in JavaScript. *)
Definition truthy (v : Value) : bool :=
  match v with
  | VUndefined | VNull => false
  | VBool b => b
  | VNum z => negb (z =? 0)
  | VStr s => negb (String.eqb s EmptyString)
  | VArr _ | VObj _ | VError _ _ => true
  end.

(** [typeof v]. *)
Definition typeOf (v : Value) : string :=
  match v with
  | VUndefined => "undefined"
  | VBool _ => "boolean"
  | VNum _ => "number"
  | VStr _ => "string"
  | VNull | VArr _ | VObj _ | VError _ _ => "object"
  end.

(** A synchronous completion: a value, or a thrown exception. *)
Inductive Completion (A : Type) : Type :=
  | Normal (a : A)
  | Throw (e : Value).
Arguments Normal {A} a.
Arguments Throw {A} e.

(** The TypeError the runtime throws. *)
Definition typeError : Value := VError "TypeError" None.

Section Conversion.

(** The text the runtime gives a number in a string: decimal digits up
    to 1e21, exponent notation from there on. *)
Variable numberToString : Z -> string.

(** [String(v)], as the template literal of line 226 applies it.  An
    object is converted by its [toString]: the inherited one gives
    "[object Object]"; an own property [toString] hides it and, no value
    here being a function, cannot be called, nor does [valueOf] give a
    primitive, so the conversion throws a TypeError.  An array joins
    the texts of its items, empty for [null] and [undefined]. *)
Fixpoint toStr (v : Value) : Completion string :=
  match v with
  | VUndefined => Normal "undefined"
  | VNull => Normal "null"
  | VBool true => Normal "true"
  | VBool false => Normal "false"
  | VNum z => Normal (numberToString z)
  | VStr s => Normal s
  | VArr items =>
      (fix join (l : list Value) : Completion string :=
         match l with
         | [] => Normal EmptyString
         | x :: r =>
             match (match x with
                    | VUndefined | VNull => Normal EmptyString
                    | _ => toStr x
                    end) with
             | Throw e => Throw e
             | Normal first =>
                 match r with
                 | [] => Normal first
                 | _ :: _ =>
                     match join r with
                     | Throw e => Throw e
                     | Normal others => Normal (first +:+ "," +:+ others)
                     end
                 end
             end
         end) items
  | VObj fields =>
      match fields !! "toString" with
      | Some _ => Throw typeError
      | None => Normal "[object Object]"
      end
  | VError m _ =>
      Normal (if String.eqb m EmptyString then "Error" else "Error: " +:+ m)
  end.

End Conversion.

(** An optional string inside a template literal. *)
Definition optText (o : option string) : string :=
  match o with
  | Some s => s
  | None => "undefined"
  end.

(** Reading the property [k] of an object literal. *)
Definition getProp (o : gmap string Value) (k : string) : Value :=
  default VUndefined (o !! k).

(** [v.k] for a value that is neither [null] nor [undefined]. *)
Definition propOf (v : Value) (k : string) : Value :=
  match v with
  | VObj o => getProp o k
  | VError m st =>
      if String.eqb k "message" then VStr m
      else if String.eqb k "stack" then
             match st with Some s => VStr s | None => VUndefined end
      else VUndefined
  | _ => VUndefined
  end.

(** The properties an object spread [{...v}] copies. *)
Definition indexed (l : list Value) : gmap string Value :=
  list_to_map (imap (fun (i : nat) (v : Value) => (pretty i, v)) l).

Definition chars (s : string) : list Value :=
  (fun a => VStr (String a EmptyString)) <$> String.list_ascii_of_string s.

Definition ownProps (v : Value) : gmap string Value :=
  match v with
  | VObj o => o
  | VArr l => indexed l
  | VStr s => indexed (chars s)
  | _ => ∅
  end.

(** [{...a, ...b}]: the later operand wins on a shared key. *)
Definition spread (a b : gmap string Value) : gmap string Value := b ∪ a.

(** Assigning to a property throws in strict code on a primitive. *)
Definition canSetProp (v : Value) : bool :=
  match v with
  | VObj _ | VArr _ | VError _ _ => true
  | _ => false
  end.

(** ** Strings *)

Definition newline : ascii := ascii_of_nat 10.

Definition dquote : ascii := ascii_of_nat 34.

(** [s] between double quotes. *)
Definition quoted (s : string) : string :=
  String dquote (s +:+ String dquote EmptyString).

(** [s.split('\n')]. *)
Fixpoint splitLines (s : string) : list string :=
  match s with
  | EmptyString => [EmptyString]
  | String c s' =>
      if Ascii.eqb c newline then EmptyString :: splitLines s'
      else match splitLines s' with
           | l :: ls => String c l :: ls
           | [] => [String c EmptyString]
           end
  end.

(** [hay.includes(needle)]. *)
Fixpoint includes (needle hay : string) : bool :=
  String.prefix needle hay
  || match hay with
     | EmptyString => false
     | String _ hay' => includes needle hay'
     end.

(** ** Dates, as far as [formatMilliseconds] uses them *)

Definition msPerDay : Z := 86400000.

(** Year, month and day of the month of a day number counted from
    1970-01-01, in the proleptic Gregorian calendar. *)
Definition civilFromDays (days : Z) : Z * Z * Z :=
  let z := days + 719468 in
  let era := z / 146097 in
  let doe := z - era * 146097 in
  let yoe := (doe - doe / 1460 + doe / 36524 - doe / 146096) / 365 in
  let doy := doe - (365 * yoe + yoe / 4 - yoe / 100) in
  let mp := (5 * doy + 2) / 153 in
  let d := doy - (153 * mp + 2) / 5 + 1 in
  let m := if mp <? 10 then mp + 3 else mp - 9 in
  (yoe + era * 400 + (if m <=? 2 then 1 else 0), m, d).

Definition digit (n : Z) : ascii := ascii_of_nat (48 + Z.to_nat (n mod 10)).

Definition pad2 (n : Z) : string :=
  String (digit (n / 10)) (String (digit n) EmptyString).

Definition pad3 (n : Z) : string := String (digit (n / 100)) (pad2 n).

Definition pad4 (n : Z) : string := String (digit (n / 1000)) (pad3 n).

Definition pad6 (n : Z) : string :=
  String (digit (n / 100000)) (String (digit (n / 10000)) (pad4 n)).

Definition isoYear (y : Z) : string :=
  if (0 <=? y) && (y <=? 9999) then pad4 y
  else (if y <? 0 then "-" else "+") +:+ pad6 (Z.abs y).

(** The [HH:mm:ss.sss] part of an ISO date string. *)
Definition isoTime (t : Z) : string :=
  let r := t mod msPerDay in
  pad2 (r / 3600000) +:+ ":" +:+ pad2 (r / 60000 mod 60) +:+ ":"
  +:+ pad2 (r / 1000 mod 60) +:+ "." +:+ pad3 (r mod 1000).

(** [new Date(t).toISOString()]; a time value outside the range of Date
    is invalid and makes it throw a RangeError ([None]). *)
Definition toISOString (t : Z) : option string :=
  if Z.abs t <=? 8640000000000000 then
    let '(y, m, d) := civilFromDays (t / msPerDay) in
    Some (isoYear y +:+ "-" +:+ pad2 m +:+ "-" +:+ pad2 d +:+ "T"
          +:+ isoTime t +:+ "Z")
  else None.

(** A time zone, as the runtime knows it: the offset of local time from
    UTC, in milliseconds, at a UTC time value and at a local one. *)
Record Zone : Type := mkZone {
  utcOffset : Z -> Z;
  localOffset : Z -> Z
}.

(** A zone that never changes its clocks. *)
Definition fixedZone (offset : Z) : Zone :=
  mkZone (fun _ => offset) (fun _ => offset).

Definition Day (t : Z) : Z := t / msPerDay.

Definition HourFromTime (t : Z) : Z := t / 3600000 mod 24.

Definition MinFromTime (t : Z) : Z := t / 60000 mod 60.

Definition SecFromTime (t : Z) : Z := t / 1000 mod 60.

Definition MakeTime (hour min sec ms : Z) : Z :=
  hour * 3600000 + min * 60000 + sec * 1000 + ms.

Definition MakeDate (day time : Z) : Z := day * msPerDay + time.

Definition LocalTime (zone : Zone) (t : Z) : Z := t + utcOffset zone t.

Definition UTC (zone : Zone) (t : Z) : Z := t - localOffset zone t.

(** A time value outside the range of Date is invalid ([None]). *)
Definition TimeClip (t : Z) : option Z :=
  if Z.abs t <=? 8640000000000000 then Some t else None.

(** [date.setMilliseconds(ms)] on a date of time value [t]: the
    milliseconds of the local time are replaced, and the result is taken
    back to UTC. *)
Definition setMilliseconds (zone : Zone) (t ms : Z) : option Z :=
  let local := LocalTime zone t in
  TimeClip
    (UTC zone
       (MakeDate (Day local)
          (MakeTime (HourFromTime local) (MinFromTime local)
             (SecFromTime local) ms))).

(** [formatMilliseconds] (lines 208-212); [None] is the RangeError of
    [toISOString] on an invalid date. *)
Definition formatMilliseconds (zone : Zone) (milliseconds : Z)
    : option string :=
  match setMilliseconds zone 0 milliseconds with
  | Some t => String.substring 11 12 <$> toISOString t
  | None => None
  end.

(** The zone keeps, at the local time a count reaches from the epoch,
    the offset it has at the epoch, a whole number of seconds. *)
Definition steadyAt (zone : Zone) (ms : Z) : Prop :=
  utcOffset zone 0 mod 1000 = 0
  /\ localOffset zone (utcOffset zone 0 + ms) = utcOffset zone 0.

(** ** The level registry *)

Definition levels : list string :=
  ["trace"; "info"; "warn"; "error"; "fatal"; "security"].

Fixpoint indexFrom (i : Z) (l : list string) (s : string) : Z :=
  match l with
  | [] => -1
  | x :: r => if String.eqb x s then i else indexFrom (i + 1) r s
  end.

(** [levels.indexOf(v)]: strict equality, so only a string can match. *)
Definition indexOf (v : Value) : Z :=
  match v with
  | VStr s => indexFrom 0 levels s
  | _ => -1
  end.

(** [levels.includes(v)]. *)
Definition includesLevel (v : Value) : bool :=
  match v with
  | VStr s => bool_decide (s ∈ levels)
  | _ => false
  end.

(** [levels[i]]. *)
Definition levelAt (i : Z) : Value :=
  if i <? 0 then VUndefined
  else match levels !! Z.to_nat i with
       | Some s => VStr s
       | None => VUndefined
       end.

Definition errorLevel : Z := indexOf (VStr "error").

(** [getInitialLogLevel] (lines 67-73), from the value of
    [process.env.LALOG_LEVEL]. *)
Definition getInitialLogLevel (laLogLevel : Value) : Z :=
  if includesLevel laLogLevel then indexOf laLogLevel else errorLevel.

(** ** The world around a Logger *)

(** How a promise settles. *)
Inductive Settled : Type :=
  | Fulfilled (v : Value)
  | Rejected (reason : Value).

(** A call of the loggly wrapper: [logSingle({logObj, tag})] or
    [logBatch({logObj, tag})]. *)
Inductive Delivery : Type :=
  | Single (logObj : Value) (tag : string)
  | Batch (logObj : list Value) (tag : string).

(** An Express response is known by a handle. *)
Definition Response : Type := nat.

Record ResponseWrapper : Type := mkResponseWrapper {
  res : Response;
  code : Z
}.

(** [res.status(code).send(body)]. *)
Record Reply : Type := mkReply {
  target : Response;
  status : Z;
  body : Value
}.

Record World : Type := mkWorld {
  currentLevelIndex : Z;          (* the module-level threshold *)
  deliveries : list Delivery;     (* calls of logSingle and logBatch *)
  replies : list Reply;           (* responses sent *)
  consoleErrors : list string;    (* lines given to console.error *)
  uuids : nat;                    (* calls of v4() so far *)
  errorsMade : nat                (* Error objects constructed so far *)
}.

Definition setThreshold (i : Z) (w : World) : World :=
  mkWorld i (deliveries w) (replies w) (consoleErrors w) (uuids w)
    (errorsMade w).

Definition addDelivery (d : Delivery) (w : World) : World :=
  mkWorld (currentLevelIndex w) (deliveries w ++ [d]) (replies w)
    (consoleErrors w) (uuids w) (errorsMade w).

Definition addReply (r : Reply) (w : World) : World :=
  mkWorld (currentLevelIndex w) (deliveries w) (replies w ++ [r])
    (consoleErrors w) (uuids w) (errorsMade w).

Definition addConsoleError (line : string) (w : World) : World :=
  mkWorld (currentLevelIndex w) (deliveries w) (replies w)
    (consoleErrors w ++ [line]) (uuids w) (errorsMade w).

Definition countUuid (w : World) : World :=
  mkWorld (currentLevelIndex w) (deliveries w) (replies w)
    (consoleErrors w) (S (uuids w)) (errorsMade w).

Definition setErrorsMade (n : nat) (w : World) : World :=
  mkWorld (currentLevelIndex w) (deliveries w) (replies w)
    (consoleErrors w) (uuids w) n.

(** [getLevel] (lines 168-170). *)
Definition getLevel (w : World) : Value := levelAt (currentLevelIndex w).

(** [setLevel] (lines 177-187): the level returned and the world after. *)
Definition setLevel (newLevelName : Value) (w : World) : Value * World :=
  let previousLevel := getLevel w in
  if negb (truthy newLevelName) then (previousLevel, w)
  else
    let newLevelIndex := indexOf newLevelName in
    if 0 <=? newLevelIndex then (previousLevel, setThreshold newLevelIndex w)
    else (previousLevel, w).

(** ** The Logger *)

Record Logger : Type := mkLogger {
  isTransient : bool;
  logCollector : option (list Value);
  presets : gmap string Value;
  tag : string;
  timers : gmap string Z;
  isTransientTriggered : bool
}.

Definition setLogCollector (c : option (list Value)) (lg : Logger) : Logger :=
  mkLogger (isTransient lg) c (presets lg) (tag lg) (timers lg)
    (isTransientTriggered lg).

Definition setTriggered (lg : Logger) : Logger :=
  mkLogger (isTransient lg) (logCollector lg) (presets lg) (tag lg)
    (timers lg) true.

Definition setTimers (t : gmap string Z) (lg : Logger) : Logger :=
  mkLogger (isTransient lg) (logCollector lg) (presets lg) (tag lg) t
    (isTransientTriggered lg).

Record LaLogOptions : Type := mkOptions {
  opt_addTrackId : bool;
  opt_moduleName : option string;
  opt_presets : Value;
  opt_serviceName : option string;
  opt_isTransient : bool
}.

(** Modelled from the spec: [isObject] of lib/utils, which is not among
    the sources; the spec calls what it accepts a plain record-like
    value. *)
Definition isObject (v : Value) : bool :=
  match v with
  | VObj _ => true
  | _ => false
  end.

(** An optional string, as a value and inside a template literal. *)
Definition optStr (o : option string) : Value :=
  match o with
  | Some s => VStr s
  | None => VUndefined
  end.

(** [parseReq] (lines 192-203). *)
Definition parseReq (req : Value) : Value :=
  VObj (<["user" := propOf req "user"]>
       (<["url" := propOf req "url"]>
       (<["query" := propOf req "query"]>
       (<["path" := propOf req "path"]>
       (<["params" := propOf req "params"]>
       (<["method" := propOf req "method"]>
       (<["headers" := propOf req "headers"]>
       (<["body" := propOf req "body"]> ∅)))))))).

(** [hasNodeModules] (line 297) keeps the lines outside node_modules. *)
Definition hasNodeModules (i : string) : bool :=
  negb (includes "/node_modules/" i).

Section Runtime.

(** What the module draws from its runtime and collaborators: the
    identifier the n-th call of [v4()] returns, the [stack] of the n-th
    [Error] constructed, [process.env.NODE_ENV], and how the promise of
    the n-th delivery settles. *)
Variable v4 : nat -> string.
Variable errorStack : nat -> option string.
Variable NODE_ENV : option string.
Variable transport : nat -> Delivery -> Settled.

(** And from the runtime itself: the text of a number, and the time
    zone. *)
Variable numberToString : Z -> string.
Variable zone : Zone.

(** The constructor (lines 106-149). *)
Definition create (options : LaLogOptions) (w : World) : Logger * World :=
  let given := if isObject (opt_presets options)
               then ownProps (opt_presets options) else ∅ in
  let presets0 :=
    spread {["module" := optStr (opt_moduleName options)]} given in
  let '(presets1, w1) :=
    if opt_addTrackId options && negb (truthy (getProp presets0 "trackId"))
    then (<["trackId" := VStr (v4 (uuids w))]> presets0, countUuid w)
    else (presets0, w) in
  (mkLogger (opt_isTransient options)
     (if opt_isTransient options then Some [] else None)
     presets1
     (optText (opt_serviceName options) +:+ "-" +:+ optText NODE_ENV)
     ∅ false,
   w1).

(** [time] (lines 146-148), [now] being what [Date.now()] returns.  An
    assignment to [__proto__] with a number creates no own property. *)
Definition time (now : Z) (label : string) (lg : Logger) : Logger :=
  if String.eqb label "__proto__" then lg
  else setTimers (<[label := now]> (timers lg)) lg.

(** Lines 256-259: the reply sent for a response wrapper. *)
Definition sendErrorId (response : option ResponseWrapper)
    (logObj : gmap string Value) (w : World) : gmap string Value * World :=
  match response with
  | Some r =>
      let existing := getProp logObj "errorId" in
      let '(errorId, w1) :=
        if truthy existing then (existing, w)
        else (VStr (v4 (uuids w)), countUuid w) in
      (<["errorId" := errorId]> logObj,
       addReply
         (mkReply (res r) (code r)
            (VObj (<["success" := VBool false]>
                     (<["errorId" := errorId]> ∅))))
         w1)
  | None => (logObj, w)
  end.

(** Lines 283-292: the stack of a truthy [err], captured now when the
    value has none; [n] counts the Error objects constructed.  Line 291
    stores the captured stack in the [err] object, which is the one the
    caller or the presets hold; what is kept here is the stack the record
    of this call is made from. *)
Definition ensureStack (err : Value) (n : nat) : Completion Value * nat :=
  if truthy (propOf err "stack") then (Normal (propOf err "stack"), n)
  else
    let fresh := VStr (default "<no error stack>" (errorStack n)) in
    if canSetProp err then (Normal fresh, S n) else (Throw typeError, S n).

(** Lines 278-280: at the error level and above an event without [err]
    gets a new Error. *)
Definition implicitErr (levelIndex : Z) (logObj : gmap string Value)
    (n : nat) : gmap string Value * nat :=
  if (errorLevel <=? levelIndex) && negb (truthy (getProp logObj "err"))
  then (<["err" := VError EmptyString (errorStack n)]> logObj, S n)
  else (logObj, n).

(** Lines 282-303: a truthy [err] is unpacked into [fullStack],
    [shortStack] and a default [msg], and deleted. *)
Definition unpackErr (logObj : gmap string Value) (n : nat)
    : Completion (gmap string Value) * nat :=
  let err := getProp logObj "err" in
  if truthy err then
    match ensureStack err n with
    | (Normal (VStr stack), n1) =>
        let fullStack := tail (splitLines stack) in
        let shortStack := List.filter hasNodeModules fullStack in
        let logObj1 :=
          <["shortStack" := VArr (VStr <$> shortStack)]>
            (<["fullStack" := VArr (VStr <$> fullStack)]> logObj) in
        let logObj2 :=
          if truthy (getProp logObj1 "msg") then logObj1
          else <["msg" := propOf err "message"]> logObj1 in
        (Normal (delete "err" logObj2), n1)
    | (Normal _, n1) => (Throw typeError, n1)
    | (Throw e, n1) => (Throw e, n1)
    end
  else (Normal logObj, n).

(** Lines 305-307. *)
Definition attachReq (req : Value) (logObj : gmap string Value)
    : gmap string Value :=
  if truthy req then <["req" := parseReq req]> logObj else logObj.

(** Lines 276-307: the record made of an admitted event. *)
Definition enrich (levelIndex : Z) (req : Value)
    (logObj : gmap string Value) (n : nat)
    : Completion (gmap string Value) * nat :=
  let '(logObj1, n1) :=
    implicitErr levelIndex (<["level" := levelAt levelIndex]> logObj) n in
  match unpackErr logObj1 n1 with
  | (Normal logObj2, n2) => (Normal (attachReq req logObj2), n2)
  | (Throw e, n2) => (Throw e, n2)
  end.

(** A call of [logSingle] or [logBatch]: the call is recorded and its
    promise settles as the transport decides. *)
Definition deliver (d : Delivery) (w : World) : Settled * World :=
  (transport (length (deliveries w)) d, addDelivery d w).

(** Lines 309-319: buffer, flush or send. *)
Definition route (levelIndex : Z) (logObj : gmap string Value)
    (lg : Logger) (w : World) : Settled * Logger * World :=
  match logCollector lg with
  | Some collected =>
      if negb (isTransientTriggered lg) then
        let lg1 := setLogCollector (Some (collected ++ [VObj logObj])) lg in
        if currentLevelIndex w <=? levelIndex then
          let lg2 := setTriggered lg1 in
          match deliver (Batch (collected ++ [VObj logObj]) (tag lg)) w with
          | (Fulfilled _, w1) =>
              (Fulfilled VUndefined, setLogCollector None lg2, w1)
          | (Rejected reason, w1) => (Rejected reason, lg2, w1)
          end
        else (Fulfilled VUndefined, lg1, w)
      else
        let '(outcome, w1) := deliver (Single (VObj logObj) (tag lg)) w in
        (outcome, lg, w1)
  | None =>
      let '(outcome, w1) := deliver (Single (VObj logObj) (tag lg)) w in
      (outcome, lg, w1)
  end.

(** [write] (lines 240-322): how the promise settles, the Logger and the
    world after the call. *)
Definition write (levelIndex : Z) (logData : Value)
    (response : option ResponseWrapper) (lg : Logger) (w : World)
    : Settled * Logger * World :=
  if negb (isObject logData) then
    (Fulfilled VUndefined, lg,
     addConsoleError
       ("Expecting an object in logger write method but got "
        +:+ quoted (typeOf logData))
       w)
  else
    let req := propOf logData "req" in
    let rest := delete "req" (ownProps logData) in
    let logObj := spread (presets lg) rest in
    let '(logObj1, w1) := sendErrorId response logObj w in
    if (currentLevelIndex w1 <=? levelIndex) || isTransient lg then
      match enrich levelIndex req logObj1 (errorsMade w1) with
      | (Normal logObj2, n) => route levelIndex logObj2 lg (setErrorsMade n w1)
      | (Throw e, n) => (Rejected e, lg, setErrorsMade n w1)
      end
    else (Fulfilled VUndefined, lg, w1).

(** [writeTimeEnd] (lines 217-235), [now] being what [Date.now()]
    returns; [Throw] is an exception thrown before [write] is reached:
    the RangeError of [formatMilliseconds], or the TypeError of a [msg]
    that cannot be converted to a string. *)
Definition writeTimeEnd (now : Z) (label : string) (level : Value)
    (extraLogDat : Value) (lg : Logger) (w : World)
    : Completion (Settled * Logger * World) :=
  let levelIndex := indexOf level in
  let extraLogData := if truthy extraLogDat then extraLogDat else VObj ∅ in
  let duration :=
    match timers lg !! label with
    | Some started =>
        match formatMilliseconds zone (now - started) with
        | Some text => Normal (VStr text, w)
        | None => Throw (VError "RangeError" None)
        end
    | None =>
        Normal
          (VStr ("Missing label " +:+ quoted label +:+ " in timeEnd()"
                 +:+ String newline (optText (errorStack (errorsMade w)))),
           setErrorsMade (S (errorsMade w)) w)
    end in
  match duration with
  | Normal (duration1, w1) =>
      let msg := propOf extraLogData "msg" in
      let msg1 :=
        if truthy msg then
          match toStr numberToString msg with
          | Normal text => Normal (VStr ("Timer - " +:+ text))
          | Throw e => Throw e
          end
        else Normal (VStr "Timer") in
      match msg1 with
      | Normal msg2 =>
          let logData :=
            <["timerLabel" := VStr label]>
              (<["msg" := msg2]>
                 (<["duration" := duration1]> (ownProps extraLogData))) in
          Normal (write levelIndex (VObj logData) None lg w1)
      | Throw e => Throw e
      end
  | Throw e => Throw e
  end.

(** What one call of a method of a Logger does to that Logger, whatever
    the world it is made in. *)
Inductive LoggerStep : Logger -> Logger -> Prop :=
  | StepWrite levelIndex logData response lg w outcome lg' w' :
      write levelIndex logData response lg w = (outcome, lg', w') ->
      LoggerStep lg lg'
  | StepTime now label lg :
      LoggerStep lg (time now label lg)
  | StepTimeEnd now label level extraLogDat lg w outcome lg' w' :
      writeTimeEnd now label level extraLogDat lg w
      = Normal (outcome, lg', w') ->
      LoggerStep lg lg'.

End Runtime.

(** The value of [err] agrees with its declared type [Error | undefined],
    or is falsy in another way. *)
Definition errTyped (v : Value) : bool :=
  match v with
  | VError _ _ => true
  | _ => negb (truthy v)
  end.

(** The properties [write] assigns itself after merging. *)
Definition assignedByWrite : list string :=
  ["level"; "err"; "fullStack"; "shortStack"; "msg"; "errorId"; "req"].

(** The world of a process started with [LALOG_LEVEL] set to
    [laLogLevel], before any call. *)
Definition initialWorld (laLogLevel : Value) : World :=
  mkWorld (getInitialLogLevel laLogLevel) [] [] [] 0 0.

(** ** A sample runtime, for concrete runs *)

Module Sample.

Definition v4 (n : nat) : string := "id-" +:+ pretty n.

Definition stackTrace : string :=
  "Error: boom" +:+ String newline
  ("    at handler (/srv/app/routes.js:10:5)" +:+ String newline
  ("    at next (/srv/app/node_modules/express/lib/router.js:2:1)"
   +:+ String newline "    at main (/srv/app/index.js:3:1)")).

Definition errorStack (n : nat) : option string := Some stackTrace.

Definition NODE_ENV : option string := Some "test".

Definition transport (n : nat) (d : Delivery) : Settled :=
  Fulfilled (VObj ∅).

(** Decimal digits, the text of the integers below 1e21. *)
Definition numberToString (z : Z) : string := pretty z.

(** UTC. *)
Definition zone : Zone := fixedZone 0.

(** A zone five hours behind UTC that moves its clocks forward by an
    hour on 26 April 1970, from 02:00 local time to 03:00, as
    America/New_York did; a local time in the hour left out is read
    with the offset before the change. *)
Definition eastern : Zone :=
  mkZone (fun t => if t <? 9961200000 then -18000000 else -14400000)
         (fun t => if t <? 9946800000 then -18000000 else -14400000).

Definition options (transient : bool) : LaLogOptions :=
  mkOptions false (Some "routes") VUndefined (Some "svc") transient.

Definition plain : Logger * World :=
  create v4 NODE_ENV (options false) (initialWorld VUndefined).

Definition transient : Logger * World :=
  create v4 NODE_ENV (options true) (initialWorld VUndefined).

Definition write := write v4 errorStack transport.

Definition writeTimeEnd :=
  writeTimeEnd v4 errorStack transport numberToString zone.

Definition message (text : string) : gmap string Value :=
  <["msg" := VStr text]> ∅.

(** The scenario of a transient Logger: [trace], [info], [error]. *)
Definition afterTrace : Settled * Logger * World :=
  write 0 (VObj (message "start")) None transient.1 transient.2.

Definition afterInfo : Settled * Logger * World :=
  write 1 (VObj (message "step")) None afterTrace.1.2 afterTrace.2.

Definition afterError : Settled * Logger * World :=
  write 3 (VObj (message "failed")) None afterInfo.1.2 afterInfo.2.

(** The world of [plain] after [setLevel('trace')]. *)
Definition verbose : World := (setLevel (VStr "trace") plain.2).2.

(** The value of property [k] in each record of a delivery call. *)
Definition sent (k : string) (d : Delivery) : list (option Value) :=
  match d with
  | Single v _ => [ownProps v !! k]
  | Batch vs _ => (fun v => ownProps v !! k) <$> vs
  end.

End Sample.

(** ** The methods of a Logger, and runs of calls *)

(** [allLevels] (lines 161-163). *)
Definition allLevels : list string := levels.

(** The properties [parseReq] copies. *)
Definition reqFields : list string :=
  ["body"; "headers"; "method"; "params"; "path"; "query"; "url"; "user"].

(** The records a delivery call carries. *)
Definition records (d : Delivery) : list Value :=
  match d with
  | Single logObj _ => [logObj]
  | Batch logObjs _ => logObjs
  end.

Definition isBatch (d : Delivery) : bool :=
  match d with
  | Batch _ _ => true
  | Single _ _ => false
  end.

(** The number of [logBatch] calls among deliveries. *)
Definition batches (ds : list Delivery) : nat :=
  length (List.filter isBatch ds).

(** The records delivered so far, followed by those a Logger still holds
    in its buffer. *)
Definition accountedFor (lg : Logger) (w : World) : list Value :=
  concat (records <$> deliveries w)
  ++ (if isTransientTriggered lg then [] else default [] (logCollector lg)).

(** The batch calls a Logger can still make: one while it holds a buffer
    that has not been flushed, none otherwise. *)
Definition flushesLeft (lg : Logger) : nat :=
  match logCollector lg with
  | Some _ => if isTransientTriggered lg then 0 else 1
  | None => 0
  end.

(** The threshold is the index of one of the six levels. *)
Definition validThreshold (w : World) : Prop :=
  0 <= currentLevelIndex w < Z.of_nat (length levels).

(** A value that is neither an object nor falsy. *)
Definition truthyPrimitive (v : Value) : bool :=
  match v with
  | VBool b => b
  | VNum z => negb (z =? 0)
  | VStr s => negb (String.eqb s EmptyString)
  | _ => false
  end.

Section Methods.

Variable v4 : nat -> string.
Variable errorStack : nat -> option string.
Variable transport : nat -> Delivery -> Settled.
Variable numberToString : Z -> string.
Variable zone : Zone.

(** The type of the level methods, [LogFunction] (line 60), with the
    Logger and the world made explicit. *)
Definition LogFunction : Type :=
  Value -> option ResponseWrapper -> Logger -> World
  -> Settled * Logger * World.

(** Lines 134-139: [write] bound to the index of each level. *)
Definition trace : LogFunction :=
  write v4 errorStack transport (indexOf (VStr "trace")).

Definition info : LogFunction :=
  write v4 errorStack transport (indexOf (VStr "info")).

Definition warn : LogFunction :=
  write v4 errorStack transport (indexOf (VStr "warn")).

Definition error : LogFunction :=
  write v4 errorStack transport (indexOf (VStr "error")).

Definition fatal : LogFunction :=
  write v4 errorStack transport (indexOf (VStr "fatal")).

Definition security : LogFunction :=
  write v4 errorStack transport (indexOf (VStr "security")).

(** The level methods by name. *)
Definition methods : list (string * LogFunction) :=
  [("trace", trace); ("info", info); ("warn", warn); ("error", error);
   ("fatal", fatal); ("security", security)].

(** A call made on a Logger or on the level registry. *)
Inductive Call : Type :=
  | CallWrite (levelIndex : Z) (logData : Value)
      (response : option ResponseWrapper)
  | CallSetLevel (newLevelName : Value)
  | CallTime (now : Z) (label : string)
  | CallTimeEnd (now : Z) (label : string) (level extraLogDat : Value).

(** The Logger and the world after a call; a [timeEnd] that throws
    leaves both as they are. *)
Definition call (c : Call) (s : Logger * World) : Logger * World :=
  match c with
  | CallWrite levelIndex logData response =>
      let '(_, lg, w) :=
        write v4 errorStack transport levelIndex logData response s.1 s.2 in
      (lg, w)
  | CallSetLevel newLevelName => (s.1, (setLevel newLevelName s.2).2)
  | CallTime now label => (time now label s.1, s.2)
  | CallTimeEnd now label level extraLogDat =>
      match writeTimeEnd v4 errorStack transport numberToString zone
              now label level extraLogDat s.1 s.2 with
      | Normal (_, lg, w) => (lg, w)
      | Throw _ => s
      end
  end.

(** A sequence of calls, one after the other. *)
Definition calls (cs : list Call) (s : Logger * World) : Logger * World :=
  fold_left (fun s c => call c s) cs s.

End Methods.

(** * Properties *)

(** ** formatMilliseconds *)

Ltac zdiv := Z.div_mod_to_equations; lia.

(** Up to the end of the year 9999 the ISO year has four digits. *)
Lemma civil_year_range (days : Z) :
  0 <= days <= 2932896 -> 0 <= (civilFromDays days).1.1 <= 9999.
Proof.
  intros H. unfold civilFromDays. cbn [fst].
  set (z := days + 719468).
  set (era := z / 146097).
  set (doe := z - era * 146097).
  set (yoe := (doe - doe / 1460 + doe / 36524 - doe / 146096) / 365).
  set (doy := doe - (365 * yoe + yoe / 4 - yoe / 100)).
  set (mp := (5 * doy + 2) / 153).
  assert (Hera : 4 <= era <= 24) by (subst era z; zdiv).
  assert (Hdoe : 0 <= doe <= 146096) by (subst doe era z; zdiv).
  assert (Hyoe : 0 <= yoe <= 399) by (subst yoe; zdiv).
  assert (Hdoy : 0 <= doy) by (subst doy yoe; zdiv).
  assert (Hmp : 0 <= mp) by (subst mp; zdiv).
  assert (Hlast : era = 24 -> yoe = 399 -> mp < 10).
  { intros E Y. assert (doe <= 146036) by (subst doe z; lia).
    subst mp doy. rewrite Y. zdiv. }
  destruct (mp <? 10) eqn:M.
  - destruct (mp + 3 <=? 2) eqn:M2; lia.
  - destruct (mp - 9 <=? 2) eqn:M2; lia.
Qed.

Lemma isoTime_fields (t : Z) :
  isoTime t
  = pad2 (t / 3600000 mod 24) +:+ ":" +:+ pad2 (t / 60000 mod 60) +:+ ":"
    +:+ pad2 (t / 1000 mod 60) +:+ "." +:+ pad3 (t mod 1000).
Proof.
  unfold isoTime, msPerDay.
  replace (t mod 86400000 / 3600000) with (t / 3600000 mod 24) by zdiv.
  replace (t mod 86400000 / 60000 mod 60) with (t / 60000 mod 60) by zdiv.
  replace (t mod 86400000 / 1000 mod 60) with (t / 1000 mod 60) by zdiv.
  replace (t mod 86400000 mod 1000) with (t mod 1000) by zdiv.
  reflexivity.
Qed.

(** In a zone steady at the count, the date reached is the count after
    the epoch. *)
Lemma setMilliseconds_steady (zone : Zone) (ms : Z) :
  steadyAt zone ms -> setMilliseconds zone 0 ms = TimeClip ms.
Proof.
  intros [Hs Ho]. unfold setMilliseconds, UTC, LocalTime.
  rewrite Z.add_0_l.
  set (o := utcOffset zone 0) in *.
  assert (E : MakeDate (Day o)
                (MakeTime (HourFromTime o) (MinFromTime o) (SecFromTime o) ms)
              = o + ms).
  { unfold MakeDate, MakeTime, Day, HourFromTime, MinFromTime, SecFromTime,
      msPerDay. zdiv. }
  rewrite E, Ho. f_equal. lia.
Qed.

Lemma formatMilliseconds_isoTime (zone : Zone) (ms : Z) :
  steadyAt zone ms -> 0 <= ms < 253402300800000 ->
  formatMilliseconds zone ms = Some (isoTime ms).
Proof.
  intros Hz H. unfold formatMilliseconds.
  rewrite (setMilliseconds_steady zone ms Hz). unfold TimeClip.
  assert (Hin : (Z.abs ms <=? 8640000000000000) = true) by lia.
  rewrite Hin. unfold toISOString. rewrite Hin.
  pose proof (civil_year_range (ms / msPerDay)) as Hy.
  destruct (civilFromDays (ms / msPerDay)) as [[y m] d]. cbn [fst] in Hy.
  assert (Hr : 0 <= y <= 9999) by (apply Hy; unfold msPerDay; zdiv).
  unfold isoYear.
  assert (Hb : ((0 <=? y) && (y <=? 9999)) = true) by lia.
  rewrite Hb. reflexivity.
Qed.

(** C9, amended: in a time zone that keeps, at the local time the count
    reaches from the epoch, the offset it has at the epoch,
    [formatMilliseconds] renders a millisecond count, up to the last
    instant of the year 9999 counted from the zero time origin, as the
    twelve characters hours:minutes:seconds.milliseconds, two digits for
    each of the first three and three for the last; 65005 gives
    "00:01:05.005". *)
Theorem formatMilliseconds_renders (zone : Zone) (ms : Z) :
  steadyAt zone ms ->
  0 <= ms < 253402300800000 ->
  formatMilliseconds zone ms
  = Some (pad2 (ms / 3600000 mod 24) +:+ ":" +:+ pad2 (ms / 60000 mod 60)
          +:+ ":" +:+ pad2 (ms / 1000 mod 60) +:+ "." +:+ pad3 (ms mod 1000))
  /\ (forall text, formatMilliseconds zone ms = Some text ->
        String.length text = 12%nat)
  /\ (steadyAt zone 65005 ->
      formatMilliseconds zone 65005 = Some "00:01:05.005").
Proof.
  intros Hz H. pose proof (formatMilliseconds_isoTime zone ms Hz H) as E.
  rewrite isoTime_fields in E. split; [| split].
  - exact E.
  - intros text Ht. rewrite E in Ht. injection Ht as <-. reflexivity.
  - intros Hz'. rewrite (formatMilliseconds_isoTime zone 65005 Hz') by lia.
    reflexivity.
Qed.

Lemma formatMilliseconds_renders_witness :
  steadyAt Sample.eastern 65005
  /\ 0 <= 65005 < 253402300800000
  /\ formatMilliseconds Sample.eastern 65005 = Some "00:01:05.005".
Proof.
  assert (Hz : steadyAt Sample.eastern 65005) by (split; reflexivity).
  split; [exact Hz |]. split; [lia |].
  destruct (formatMilliseconds_renders Sample.eastern 65005 Hz ltac:(lia))
    as (_ & _ & E).
  exact (E Hz).
Defined.

(** ** The level registry *)

Lemma indexFrom_elem (s : string) (l : list string) (i : Z) :
  0 <= i -> s ∈ l ->
  i <= indexFrom i l s
  /\ l !! Z.to_nat (indexFrom i l s - i) = Some s.
Proof.
  intros Hi Hin. revert i Hi.
  induction Hin as [x r|x y r Hin IH]; intros i Hi; cbn [indexFrom].
  - rewrite String.eqb_refl. replace (i - i) with 0 by lia. split; [lia | done].
  - destruct (String.eqb y x) eqn:E.
    + apply String.eqb_eq in E as ->.
      replace (i - i) with 0 by lia. split; [lia | done].
    + destruct (IH (i + 1)) as [Hle Hl]; [lia |]. split; [lia |].
      replace (Z.to_nat (indexFrom (i + 1) r x - i))
        with (S (Z.to_nat (indexFrom (i + 1) r x - (i + 1)))) by lia.
      exact Hl.
Qed.

Lemma indexFrom_not_elem (s : string) (l : list string) (i : Z) :
  s ∉ l -> indexFrom i l s = -1.
Proof.
  revert i. induction l as [|x r IH]; intros i Hn; cbn [indexFrom].
  - reflexivity.
  - destruct (String.eqb x s) eqn:E.
    + apply String.eqb_eq in E as ->. exfalso. apply Hn. left.
    + apply IH. intros Hin. apply Hn. right. exact Hin.
Qed.

Lemma empty_not_level : EmptyString ∉ levels.
Proof. apply (bool_decide_unpack _). exact I. Qed.

(** C3: [setLevel] with a falsy argument, or with a value that is not one
    of the level names, leaves the threshold as it is and returns the
    current level; with a level name it makes that level the threshold
    and returns the level that was current before the call. *)
Theorem setLevel_contract (w : World) :
  (forall v, truthy v = false -> setLevel v w = (getLevel w, w))
  /\ (forall v, (forall s, s ∈ levels -> v <> VStr s) ->
        setLevel v w = (getLevel w, w))
  /\ (forall s, s ∈ levels ->
        (setLevel (VStr s) w).1 = getLevel w
        /\ getLevel (setLevel (VStr s) w).2 = VStr s
        /\ currentLevelIndex (setLevel (VStr s) w).2 = indexOf (VStr s)).
Proof.
  split; [| split].
  - intros v Hv. unfold setLevel. rewrite Hv. reflexivity.
  - intros v Hv. unfold setLevel.
    destruct (negb (truthy v)); [reflexivity |].
    assert (E : indexOf v = -1).
    { destruct v; try reflexivity. cbn [indexOf].
      apply indexFrom_not_elem. intros Hin. exact (Hv _ Hin eq_refl). }
    rewrite E. reflexivity.
  - intros s Hs.
    assert (Ht : truthy (VStr s) = true).
    { cbn. destruct (String.eqb s EmptyString) eqn:E; [| reflexivity].
      apply String.eqb_eq in E. subst s. destruct (empty_not_level Hs). }
    destruct (indexFrom_elem s levels 0 ltac:(lia) Hs) as [Hle Hl].
    unfold setLevel. rewrite Ht. cbn [negb indexOf].
    assert (Hb : (0 <=? indexFrom 0 levels s) = true) by lia.
    rewrite Hb. cbn [fst snd]. split; [reflexivity |]. split; [| reflexivity].
    unfold getLevel, setThreshold, levelAt. cbn [currentLevelIndex].
    assert (Hn : (indexFrom 0 levels s <? 0) = false) by lia.
    rewrite Hn. rewrite Z.sub_0_r in Hl. rewrite Hl. reflexivity.
Qed.

Lemma setLevel_contract_witness :
  truthy VUndefined = false
  /\ setLevel VUndefined (initialWorld VUndefined)
     = (VStr "error", initialWorld VUndefined)
  /\ setLevel (VStr "verbose") (initialWorld VUndefined)
     = (VStr "error", initialWorld VUndefined)
  /\ "warn" ∈ levels
  /\ (setLevel (VStr "warn") (initialWorld VUndefined)).1 = VStr "error"
  /\ getLevel (setLevel (VStr "warn") (initialWorld VUndefined)).2
     = VStr "warn".
Proof.
  destruct (setLevel_contract (initialWorld VUndefined)) as (H1 & H2 & H3).
  assert (Hw : "warn" ∈ levels) by (apply (bool_decide_unpack _); exact I).
  split; [reflexivity |].
  split; [exact (H1 VUndefined eq_refl) |].
  split.
  { apply H2. intros s Hs E. injection E as <-. revert Hs.
    apply (bool_decide_unpack _). exact I. }
  split; [exact Hw |].
  destruct (H3 "warn" Hw) as (Ha & Hb & _). split; [exact Ha | exact Hb].
Defined.

(** ** The record made of an event *)

Ltac keys :=
  repeat first
    [ rewrite lookup_insert_eq
    | rewrite lookup_delete_eq
    | rewrite lookup_insert_ne by congruence
    | rewrite lookup_delete_ne by congruence ].

Lemma getProp_insert_ne (o : gmap string Value) (k k' : string) (v : Value) :
  k <> k' -> getProp (<[k := v]> o) k' = getProp o k'.
Proof. intros H. unfold getProp. by rewrite lookup_insert_ne. Qed.

Lemma getProp_insert_eq (o : gmap string Value) (k : string) (v : Value) :
  getProp (<[k := v]> o) k = v.
Proof. unfold getProp. by rewrite lookup_insert_eq. Qed.

(** Dropping lines by a test leaves a subsequence. *)
Lemma filter_sublist (f : string -> bool) (l : list string) :
  sublist (List.filter f l) l.
Proof.
  induction l as [|x l IH]; cbn.
  - constructor.
  - destruct (f x); by constructor.
Qed.

Section Records.

Variable v4 : nat -> string.
Variable errorStack : nat -> option string.

Lemma implicitErr_other (li : Z) (o o1 : gmap string Value) (n n1 : nat)
    (k : string) :
  implicitErr errorStack li o n = (o1, n1) -> k <> "err" -> o1 !! k = o !! k.
Proof.
  unfold implicitErr. intros H Hk.
  destruct (_ && _); injection H as <- <-; by keys.
Qed.

(** After line 280 [err] is truthy exactly when it was supplied truthy
    or the level is error or above. *)
Lemma implicitErr_err (li : Z) (o o1 : gmap string Value) (n n1 : nat) :
  implicitErr errorStack li o n = (o1, n1) ->
  (truthy (getProp o "err") = true /\ o1 = o /\ n1 = n)
  \/ (truthy (getProp o "err") = false /\ errorLevel <= li
      /\ o1 = <["err" := VError EmptyString (errorStack n)]> o /\ n1 = S n)
  \/ (truthy (getProp o "err") = false /\ li < errorLevel
      /\ o1 = o /\ n1 = n).
Proof.
  unfold implicitErr. intros H.
  destruct (truthy (getProp o "err")) eqn:T; cbn [negb] in H.
  - rewrite andb_false_r in H. injection H as <- <-. by left.
  - rewrite andb_true_r in H. destruct (errorLevel <=? li) eqn:L.
    + injection H as <- <-. right; left. repeat split; [lia].
    + injection H as <- <-. right; right. repeat split; [lia].
Qed.

Lemma unpackErr_other (o r : gmap string Value) (n n1 : nat) (k : string) :
  unpackErr errorStack o n = (Normal r, n1) ->
  k <> "err" -> k <> "fullStack" -> k <> "shortStack" -> k <> "msg" ->
  r !! k = o !! k.
Proof.
  unfold unpackErr. intros H K1 K2 K3 K4.
  destruct (truthy (getProp o "err")).
  - destruct (ensureStack errorStack (getProp o "err") n) as [[[]|] n2];
      try discriminate.
    destruct (truthy _); injection H as <- <-; by keys.
  - by injection H as <- <-.
Qed.

Lemma unpackErr_msg (o r : gmap string Value) (n n1 : nat) :
  unpackErr errorStack o n = (Normal r, n1) ->
  truthy (getProp o "msg") = true -> r !! "msg" = o !! "msg".
Proof.
  unfold unpackErr. intros H M.
  destruct (truthy (getProp o "err")).
  - destruct (ensureStack errorStack (getProp o "err") n) as [[[]|] n2];
      try discriminate.
    rewrite !getProp_insert_ne, M in H by congruence.
    injection H as <- <-. by keys.
  - by injection H as <- <-.
Qed.

(** What line 282 finds falsy stays as it is; what it finds truthy is
    deleted. *)
Lemma unpackErr_err (o r : gmap string Value) (n n1 : nat) :
  unpackErr errorStack o n = (Normal r, n1) ->
  (truthy (getProp o "err") = true /\ r !! "err" = None)
  \/ (truthy (getProp o "err") = false /\ r = o /\ n1 = n).
Proof.
  unfold unpackErr. intros H.
  destruct (truthy (getProp o "err")).
  - left. split; [reflexivity |].
    destruct (ensureStack errorStack (getProp o "err") n) as [[[]|] n2];
      try discriminate.
    injection H as <- <-. by keys.
  - right. by injection H as <- <-.
Qed.

(** An [err] of the declared type never makes lines 282-303 throw. *)
Lemma unpackErr_typed (o : gmap string Value) (n : nat) :
  errTyped (getProp o "err") = true ->
  exists r n1, unpackErr errorStack o n = (Normal r, n1).
Proof.
  unfold unpackErr. intros T.
  destruct (truthy (getProp o "err")) eqn:E; [| eauto].
  destruct (getProp o "err") as [| |b|z|s|l|f|m st];
    try (cbn [errTyped] in T; rewrite E in T; discriminate).
  unfold ensureStack.
  change (propOf (VError m st) "stack")
    with (match st with Some s => VStr s | None => VUndefined end).
  destruct st as [s|].
  - destruct (truthy (VStr s)); eauto.
  - change (truthy VUndefined) with false. cbv iota.
    change (canSetProp (VError m None)) with true. cbv iota. eauto.
Qed.

Lemma attachReq_other (req : Value) (o : gmap string Value) (k : string) :
  k <> "req" -> attachReq req o !! k = o !! k.
Proof. intros H. unfold attachReq. destruct (truthy req); by keys. Qed.

Lemma enrich_typed (li : Z) (req : Value) (o : gmap string Value) (n : nat) :
  errTyped (getProp o "err") = true ->
  exists r n1, enrich errorStack li req o n = (Normal r, n1).
Proof.
  intros T. unfold enrich.
  destruct (implicitErr errorStack li (<["level" := levelAt li]> o) n)
    as [o1 n1] eqn:I.
  assert (T1 : errTyped (getProp o1 "err") = true).
  { apply implicitErr_err in I.
    rewrite getProp_insert_ne in I by congruence.
    destruct I as [(_ & -> & _) | [(_ & _ & -> & _) | (_ & _ & -> & _)]].
    - by rewrite getProp_insert_ne by congruence.
    - by rewrite getProp_insert_eq.
    - by rewrite getProp_insert_ne by congruence. }
  destruct (unpackErr_typed o1 n1 T1) as (r & n2 & ->). eauto.
Qed.

Lemma enrich_inv (li : Z) (req : Value) (o r : gmap string Value)
    (n n2 : nat) :
  enrich errorStack li req o n = (Normal r, n2) ->
  exists o1 n1 r1,
    implicitErr errorStack li (<["level" := levelAt li]> o) n = (o1, n1)
    /\ unpackErr errorStack o1 n1 = (Normal r1, n2)
    /\ r = attachReq req r1.
Proof.
  unfold enrich.
  destruct (implicitErr errorStack li (<["level" := levelAt li]> o) n)
    as [o1 n1] eqn:I.
  destruct (unpackErr errorStack o1 n1) as [[r1|e] n3] eqn:U; [| discriminate].
  intros H. injection H as <- <-. exists o1, n1, r1. done.
Qed.

(** The properties [enrich] does not assign are those of the merged
    object. *)
Lemma enrich_other (li : Z) (req : Value) (o r : gmap string Value)
    (n n2 : nat) (k : string) :
  enrich errorStack li req o n = (Normal r, n2) ->
  k ∉ assignedByWrite -> r !! k = o !! k.
Proof.
  intros H Hk. apply enrich_inv in H as (o1 & n1 & r1 & I & U & ->).
  unfold assignedByWrite in Hk. rewrite !not_elem_of_cons in Hk.
  destruct Hk as (K1 & K2 & K3 & K4 & K5 & K6 & K7 & _).
  rewrite attachReq_other by done.
  rewrite (unpackErr_other _ _ _ _ k U) by done.
  rewrite (implicitErr_other _ _ _ _ _ k I) by done.
  by keys.
Qed.

Lemma enrich_level (li : Z) (req : Value) (o r : gmap string Value)
    (n n2 : nat) :
  enrich errorStack li req o n = (Normal r, n2) ->
  r !! "level" = Some (levelAt li).
Proof.
  intros H. apply enrich_inv in H as (o1 & n1 & r1 & I & U & ->).
  rewrite attachReq_other by done.
  rewrite (unpackErr_other _ _ _ _ "level" U) by done.
  rewrite (implicitErr_other _ _ _ _ _ "level" I) by done.
  by keys.
Qed.

Lemma enrich_msg (li : Z) (req : Value) (o r : gmap string Value)
    (n n2 : nat) :
  enrich errorStack li req o n = (Normal r, n2) ->
  truthy (getProp o "msg") = true -> r !! "msg" = o !! "msg".
Proof.
  intros H M. apply enrich_inv in H as (o1 & n1 & r1 & I & U & ->).
  rewrite attachReq_other by done.
  assert (E : o1 !! "msg" = o !! "msg").
  { rewrite (implicitErr_other _ _ _ _ _ "msg" I) by done. by keys. }
  rewrite (unpackErr_msg _ _ _ _ U); [exact E |].
  unfold getProp. by rewrite E.
Qed.

(** The record keeps no truthy [err]; it keeps no [err] at all when one
    was supplied truthy or the level is error or above, and otherwise
    what was supplied. *)
Lemma enrich_err (li : Z) (req : Value) (o r : gmap string Value)
    (n n2 : nat) :
  enrich errorStack li req o n = (Normal r, n2) ->
  truthy (getProp r "err") = false
  /\ (truthy (getProp o "err") = true \/ errorLevel <= li ->
      r !! "err" = None)
  /\ (truthy (getProp o "err") = false -> li < errorLevel ->
      r !! "err" = o !! "err").
Proof.
  intros H. apply enrich_inv in H as (o1 & n1 & r1 & I & U & ->).
  unfold getProp at 1. rewrite attachReq_other by done.
  apply implicitErr_err in I. rewrite getProp_insert_ne in I by congruence.
  apply unpackErr_err in U.
  destruct I as [(T & -> & _) | [(T & L & -> & _) | (T & L & -> & _)]].
  - rewrite getProp_insert_ne in U by congruence.
    destruct U as [(_ & E) | (F & _)]; [| congruence].
    rewrite E. split; [reflexivity |]. split; [done |]. congruence.
  - rewrite getProp_insert_eq in U.
    destruct U as [(_ & E) | (F & _)]; [| discriminate].
    rewrite E. split; [reflexivity |]. split; [done |]. lia.
  - rewrite getProp_insert_ne in U by congruence.
    destruct U as [(F & _) | (_ & -> & _)]; [congruence |].
    keys. split; [exact T |]. split; [intros [?|?]; [congruence | lia] |].
    done.
Qed.

Lemma sendErrorId_other (response : option ResponseWrapper)
    (o o1 : gmap string Value) (w w1 : World) (k : string) :
  sendErrorId v4 response o w = (o1, w1) ->
  k <> "errorId" -> o1 !! k = o !! k.
Proof.
  unfold sendErrorId. intros H Hk. destruct response as [r|].
  - destruct (truthy (getProp o "errorId")); injection H as <- <-; by keys.
  - by injection H as <- <-.
Qed.

Lemma sendErrorId_world (response : option ResponseWrapper)
    (o o1 : gmap string Value) (w w1 : World) :
  sendErrorId v4 response o w = (o1, w1) ->
  currentLevelIndex w1 = currentLevelIndex w
  /\ deliveries w1 = deliveries w
  /\ errorsMade w1 = errorsMade w
  /\ consoleErrors w1 = consoleErrors w.
Proof.
  unfold sendErrorId. intros H. destruct response as [r|].
  - destruct (truthy (getProp o "errorId")); by injection H as <- <-.
  - by injection H as <- <-.
Qed.

(** [errorId] is assigned at line 257 and nowhere after. *)
Lemma sendErrorId_errorId (response : option ResponseWrapper)
    (o o1 : gmap string Value) (w w1 : World) :
  sendErrorId v4 response o w = (o1, w1) ->
  o1 !! "errorId"
  = match response with
    | Some _ =>
        Some (if truthy (getProp o "errorId") then getProp o "errorId"
              else VStr (v4 (uuids w)))
    | None => o !! "errorId"
    end.
Proof.
  unfold sendErrorId. intros H. destruct response as [r|].
  - destruct (truthy (getProp o "errorId")); injection H as <- <-; by keys.
  - by injection H as <- <-.
Qed.

Lemma enrich_errorId (li : Z) (req : Value) (o r : gmap string Value)
    (n n2 : nat) :
  enrich errorStack li req o n = (Normal r, n2) ->
  r !! "errorId" = o !! "errorId".
Proof.
  intros H. apply enrich_inv in H as (o1 & n1 & r1 & I & U & ->).
  rewrite attachReq_other by done.
  rewrite (unpackErr_other _ _ _ _ "errorId" U) by done.
  rewrite (implicitErr_other _ _ _ _ _ "errorId" I) by done.
  by keys.
Qed.

(** [req] is the projection of a truthy [req] of the event, and else
    what the merged object has. *)
Lemma enrich_req (li : Z) (req : Value) (o r : gmap string Value)
    (n n2 : nat) :
  enrich errorStack li req o n = (Normal r, n2) ->
  r !! "req" = if truthy req then Some (parseReq req) else o !! "req".
Proof.
  intros H. apply enrich_inv in H as (o1 & n1 & r1 & I & U & ->).
  unfold attachReq. destruct (truthy req); [by keys |].
  rewrite (unpackErr_other _ _ _ _ "req" U) by done.
  rewrite (implicitErr_other _ _ _ _ _ "req" I) by done.
  by keys.
Qed.

(** Below the error level an event without a truthy [err] keeps what it
    has under the names of lines 293-301. *)
Lemma enrich_plain (li : Z) (req : Value) (o r : gmap string Value)
    (n n2 : nat) (k : string) :
  enrich errorStack li req o n = (Normal r, n2) ->
  truthy (getProp o "err") = false -> li < errorLevel ->
  k <> "level" -> k <> "req" -> r !! k = o !! k.
Proof.
  intros H F L K1 K2. apply enrich_inv in H as (o1 & n1 & r1 & I & U & ->).
  rewrite attachReq_other by done.
  apply implicitErr_err in I. rewrite getProp_insert_ne in I by congruence.
  destruct I as [(T & _) | [(_ & L' & _) | (_ & _ & -> & ->)]];
    [congruence | lia |].
  apply unpackErr_err in U. rewrite getProp_insert_ne in U by congruence.
  destruct U as [(T & _) | (_ & -> & _)]; [congruence |]. by keys.
Qed.

End Records.

(** ** write *)

Lemma spread_lookup_ne (p ev : gmap string Value) (k k' : string) :
  k <> k' -> spread p (delete k ev) !! k' = spread p ev !! k'.
Proof.
  intros H. unfold spread. rewrite !lookup_union, lookup_delete_ne by done.
  reflexivity.
Qed.


(** On a key of the event the merged object has the event's value. *)
Lemma spread_event_wins (p ev : gmap string Value) (k : string) (v : Value) :
  ev !! k = Some v -> spread p ev !! k = Some v.
Proof. intros H. unfold spread. by apply lookup_union_Some_l. Qed.

Section Writes.

Variable v4 : nat -> string.
Variable errorStack : nat -> option string.
Variable transport : nat -> Delivery -> Settled.

Local Abbreviation write' := (write v4 errorStack transport).
Local Abbreviation route' := (route transport).

(** The admission test of line 275. *)
Local Abbreviation admitted li lg w :=
  ((currentLevelIndex w <=? li) || isTransient lg).

Lemma route_single (li : Z) (r : gmap string Value) (lg : Logger) (w : World) :
  logCollector lg = None \/ isTransientTriggered lg = true ->
  route' li r lg w
  = (transport (length (deliveries w)) (Single (VObj r) (tag lg)), lg,
     addDelivery (Single (VObj r) (tag lg)) w).
Proof.
  unfold route, deliver. intros [H|H]; rewrite H; [reflexivity |].
  destruct (logCollector lg); reflexivity.
Qed.

Lemma route_buffer (li : Z) (r : gmap string Value) (lg : Logger) (w : World)
    (collected : list Value) :
  logCollector lg = Some collected -> isTransientTriggered lg = false ->
  li < currentLevelIndex w ->
  route' li r lg w
  = (Fulfilled VUndefined,
     setLogCollector (Some (collected ++ [VObj r])) lg, w).
Proof.
  unfold route. intros -> -> H.
  assert (E : (currentLevelIndex w <=? li) = false) by lia.
  cbn [negb]. rewrite E. reflexivity.
Qed.

Lemma route_flush (li : Z) (r : gmap string Value) (lg : Logger) (w : World)
    (collected : list Value) :
  logCollector lg = Some collected -> isTransientTriggered lg = false ->
  currentLevelIndex w <= li ->
  let batch := Batch (collected ++ [VObj r]) (tag lg) in
  route' li r lg w
  = match transport (length (deliveries w)) batch with
    | Fulfilled _ =>
        (Fulfilled VUndefined,
         setLogCollector None
           (setTriggered (setLogCollector (Some (collected ++ [VObj r])) lg)),
         addDelivery batch w)
    | Rejected reason =>
        (Rejected reason,
         setTriggered (setLogCollector (Some (collected ++ [VObj r])) lg),
         addDelivery batch w)
    end.
Proof.
  unfold route, deliver. intros -> -> H.
  assert (E : (currentLevelIndex w <=? li) = true) by lia.
  cbn [negb]. rewrite E. destruct (transport _ _); reflexivity.
Qed.

(** Routing sends no reply, and never clears the trigger. *)
Lemma route_keeps (li : Z) (r : gmap string Value) (lg lg' : Logger)
    (w w' : World) (outcome : Settled) :
  route' li r lg w = (outcome, lg', w') ->
  replies w' = replies w /\ uuids w' = uuids w
  /\ tag lg' = tag lg /\ isTransient lg' = isTransient lg
  /\ presets lg' = presets lg
  /\ (isTransientTriggered lg = true ->
      lg' = lg /\ exists d, deliveries w' = deliveries w ++ [d]).
Proof.
  unfold route, deliver. intros H.
  destruct (logCollector lg) as [c|] eqn:C;
    [destruct (isTransientTriggered lg) eqn:T; cbn [negb] in H;
     [| destruct (currentLevelIndex w <=? li);
        [destruct (transport _ _) |]] |];
    injection H as <- <- <-; repeat split; try done; eauto.
Qed.

Lemma write_not_object (li : Z) (logData : Value)
    (response : option ResponseWrapper) (lg : Logger) (w : World) :
  isObject logData = false ->
  write' li logData response lg w
  = (Fulfilled VUndefined, lg,
     addConsoleError
       ("Expecting an object in logger write method but got "
        +:+ quoted (typeOf logData)) w).
Proof. intros H. unfold write. rewrite H. reflexivity. Qed.

Lemma write_dropped (li : Z) (ev : gmap string Value)
    (response : option ResponseWrapper) (lg : Logger) (w : World) :
  admitted li lg w = false ->
  write' li (VObj ev) response lg w
  = (Fulfilled VUndefined, lg,
     (sendErrorId v4 response (spread (presets lg) (delete "req" ev)) w).2).
Proof.
  intros H. unfold write. cbn [isObject negb ownProps propOf].
  destruct (sendErrorId _ _ _ _) as [o1 w1] eqn:S.
  destruct (sendErrorId_world _ _ _ _ _ _ S) as (-> & _). rewrite H.
  reflexivity.
Qed.

Lemma write_admitted (li : Z) (ev o1 : gmap string Value)
    (response : option ResponseWrapper) (lg : Logger) (w w1 : World) :
  admitted li lg w = true ->
  sendErrorId v4 response (spread (presets lg) (delete "req" ev)) w
  = (o1, w1) ->
  write' li (VObj ev) response lg w
  = match enrich errorStack li (getProp ev "req") o1 (errorsMade w) with
    | (Normal r, n) => route' li r lg (setErrorsMade n w1)
    | (Throw e, n) => (Rejected e, lg, setErrorsMade n w1)
    end.
Proof.
  intros H S. unfold write. cbn [isObject negb ownProps propOf].
  rewrite S. destruct (sendErrorId_world _ _ _ _ _ _ S) as (-> & _ & -> & _).
  rewrite H. reflexivity.
Qed.

(** An admitted event with [err] of its declared type reaches the
    routing of lines 309-319 as a record. *)
Lemma write_routes (li : Z) (ev o1 : gmap string Value)
    (response : option ResponseWrapper) (lg : Logger) (w w1 : World) :
  admitted li lg w = true ->
  errTyped (getProp (spread (presets lg) ev) "err") = true ->
  sendErrorId v4 response (spread (presets lg) (delete "req" ev)) w
  = (o1, w1) ->
  exists r n,
    enrich errorStack li (getProp ev "req") o1 (errorsMade w) = (Normal r, n)
    /\ write' li (VObj ev) response lg w = route' li r lg (setErrorsMade n w1).
Proof.
  intros H T S.
  assert (T1 : errTyped (getProp o1 "err") = true).
  { unfold getProp. rewrite (sendErrorId_other _ _ _ _ _ _ "err" S) by done.
    rewrite spread_lookup_ne by done. exact T. }
  destruct (enrich_typed errorStack li (getProp ev "req") o1 (errorsMade w) T1)
    as (r & n & E).
  exists r, n. split; [exact E |].
  rewrite (write_admitted _ _ _ _ _ _ _ H S), E. reflexivity.
Qed.

End Writes.

Section WriteClaims.

Variable v4 : nat -> string.
Variable errorStack : nat -> option string.
Variable transport : nat -> Delivery -> Settled.

Local Abbreviation write' := (write v4 errorStack transport).
Local Abbreviation route' := (route transport).
Local Abbreviation admitted li lg w :=
  ((currentLevelIndex w <=? li) || isTransient lg).

(** C7: a [write] whose event is not a record-like object reports the
    problem on the console, makes no delivery call, leaves the Logger as
    it is and resolves with nothing; it does not reject. *)
Theorem write_malformed_event (li : Z) (logData : Value)
    (response : option ResponseWrapper) (lg : Logger) (w : World) :
  isObject logData = false ->
  exists w',
    write' li logData response lg w = (Fulfilled VUndefined, lg, w')
    /\ consoleErrors w'
       = consoleErrors w
         ++ ["Expecting an object in logger write method but got "
             +:+ quoted (typeOf logData)]
    /\ deliveries w' = deliveries w.
Proof.
  intros H. eexists. split; [apply write_not_object, H |]. by split.
Qed.

(** C10: a [write] whose event is not a record-like object sends no
    reply and draws no identifier, also when a response wrapper is
    supplied. *)
Theorem write_malformed_no_reply (li : Z) (logData : Value)
    (rw : ResponseWrapper) (lg : Logger) (w : World) :
  isObject logData = false ->
  exists outcome lg' w',
    write' li logData (Some rw) lg w = (outcome, lg', w')
    /\ replies w' = replies w
    /\ uuids w' = uuids w.
Proof.
  intros H. do 3 eexists. split; [apply write_not_object, H |]. by split.
Qed.


(** C6, amended: the merged record is the presets overlaid with the rest
    of the event, so for every key present in both, other than the
    properties [write] assigns itself, the record handed on for delivery
    carries the event's value; a Logger without buffer delivers that
    record at once. *)
Theorem write_event_value_wins (li : Z) (ev : gmap string Value)
    (response : option ResponseWrapper) (lg : Logger) (w : World)
    (k : string) (pv v : Value) :
  presets lg !! k = Some pv -> ev !! k = Some v -> k ∉ assignedByWrite ->
  admitted li lg w = true ->
  errTyped (getProp (spread (presets lg) ev) "err") = true ->
  exists r w1,
    write' li (VObj ev) response lg w = route' li r lg w1
    /\ r !! k = Some v
    /\ (logCollector lg = None ->
        route' li r lg w1
        = (transport (length (deliveries w1)) (Single (VObj r) (tag lg)), lg,
           addDelivery (Single (VObj r) (tag lg)) w1)).
Proof.
  intros P V K A T.
  destruct (sendErrorId v4 response
              (spread (presets lg) (delete "req" ev)) w) as [o1 w1] eqn:S.
  destruct (write_routes v4 errorStack transport _ _ _ _ _ _ _ A T S)
    as (r & n & E & ->).
  exists r. eexists. split; [reflexivity |]. split.
  - rewrite (enrich_other _ _ _ _ _ _ _ _ E K).
    unfold assignedByWrite in K. rewrite !not_elem_of_cons in K.
    destruct K as (_ & _ & _ & _ & _ & K6 & K7 & _).
    rewrite (sendErrorId_other _ _ _ _ _ _ k S) by done.
    rewrite spread_lookup_ne by done. by apply spread_event_wins.
  - intros C. apply route_single. by left.
Qed.

End WriteClaims.

(** ** Error enrichment *)

Section Enrichment.

Variable v4 : nat -> string.
Variable errorStack : nat -> option string.
Variable transport : nat -> Delivery -> Settled.

Local Abbreviation write' := (write v4 errorStack transport).
Local Abbreviation route' := (route transport).
Local Abbreviation admitted li lg w :=
  ((currentLevelIndex w <=? li) || isTransient lg).

(** The stack an Error ends with: its own when it has one, else the one
    captured at line 291. *)
Lemma ensureStack_error (m : string) (st : option string) (n : nat) :
  exists stack n1,
    ensureStack errorStack (VError m st) n = (Normal (VStr stack), n1)
    /\ (forall s, st = Some s -> s <> EmptyString -> stack = s)
    /\ (st = None \/ st = Some EmptyString ->
        stack = default "<no error stack>" (errorStack n)).
Proof.
  unfold ensureStack.
  change (propOf (VError m st) "stack")
    with (match st with Some s => VStr s | None => VUndefined end).
  change (canSetProp (VError m st)) with true.
  destruct st as [s|].
  - change (truthy (VStr s)) with (negb (String.eqb s EmptyString)).
    destruct (String.eqb s EmptyString) eqn:E; cbn [negb].
    + apply String.eqb_eq in E as ->. do 2 eexists.
      split; [reflexivity |]. split; [| done].
      intros s [= <-] H. by destruct H.
    + apply String.eqb_neq in E. do 2 eexists.
      split; [reflexivity |]. split.
      * by intros s' [= <-] _.
      * intros [H|[= H]]; [discriminate | by destruct E].
  - do 2 eexists. split; [reflexivity |]. split; [| done]. by intros s [=].
Qed.

Lemma unpackErr_error (o : gmap string Value) (n : nat) (m : string)
    (st : option string) (stack : string) (n1 : nat) :
  getProp o "err" = VError m st ->
  ensureStack errorStack (VError m st) n = (Normal (VStr stack), n1) ->
  exists r,
    unpackErr errorStack o n = (Normal r, n1)
    /\ r !! "fullStack" = Some (VArr (VStr <$> tail (splitLines stack)))
    /\ r !! "shortStack"
       = Some (VArr (VStr <$> List.filter hasNodeModules
                                (tail (splitLines stack))))
    /\ r !! "err" = None
    /\ (truthy (getProp o "msg") = false -> r !! "msg" = Some (VStr m)).
Proof.
  intros E S. unfold unpackErr. rewrite E, S.
  change (truthy (VError m st)) with true. cbv iota.
  rewrite !getProp_insert_ne by congruence.
  destruct (truthy (getProp o "msg")); eexists;
    (split; [reflexivity |]); repeat split; try discriminate; by keys.
Qed.

Lemma filter_hasNodeModules (l : list string) (line : string) :
  line ∈ List.filter hasNodeModules l
  <-> line ∈ l /\ includes "/node_modules/" line = false.
Proof.
  rewrite !list_elem_of_In, filter_In. unfold hasNodeModules.
  by rewrite negb_true_iff.
Qed.

(** The record of an event whose [err] is an Error, and of one without a
    truthy [err] at the error level or above. *)
Lemma enrich_unpacked (li : Z) (req : Value) (o r : gmap string Value)
    (n n2 : nat) :
  enrich errorStack li req o n = (Normal r, n2) ->
  (forall m st, getProp o "err" = VError m st ->
     exists stack,
       (forall s, st = Some s -> s <> EmptyString -> stack = s)
       /\ (st = None \/ st = Some EmptyString ->
           stack = default "<no error stack>" (errorStack n))
       /\ r !! "fullStack" = Some (VArr (VStr <$> tail (splitLines stack)))
       /\ r !! "shortStack"
          = Some (VArr (VStr <$> List.filter hasNodeModules
                                   (tail (splitLines stack))))
       /\ r !! "msg"
          = if truthy (getProp o "msg") then o !! "msg" else Some (VStr m))
  /\ (truthy (getProp o "err") = false -> errorLevel <= li ->
      exists stack,
        (forall s, errorStack n = Some s -> s <> EmptyString -> stack = s)
        /\ (errorStack n = None \/ errorStack n = Some EmptyString ->
            stack = default "<no error stack>" (errorStack (S n)))
        /\ r !! "fullStack" = Some (VArr (VStr <$> tail (splitLines stack)))
        /\ r !! "shortStack"
           = Some (VArr (VStr <$> List.filter hasNodeModules
                                    (tail (splitLines stack))))
        /\ r !! "msg"
           = if truthy (getProp o "msg") then o !! "msg"
             else Some (VStr EmptyString)).
Proof.
  intros H.
  assert (Msg : truthy (getProp o "msg") = true -> r !! "msg" = o !! "msg")
    by (apply (enrich_msg _ _ _ _ _ _ _ H)).
  apply enrich_inv in H as (o1 & n1 & r1 & I & U & ->).
  set (o2 := <["level" := levelAt li]> o) in *.
  assert (P2 : forall k, k <> "level" -> getProp o2 k = getProp o k)
    by (intros k K; apply getProp_insert_ne; congruence).
  apply implicitErr_err in I. rewrite P2 in I by done.
  rewrite !attachReq_other by done. rewrite attachReq_other in Msg by done.
  split.
  - intros m st E. rewrite E in I. change (truthy (VError m st)) with true in I.
    destruct I as [(_ & -> & ->) | [(T & _) | (T & _)]]; try discriminate.
    assert (E2 : getProp o2 "err" = VError m st) by (by rewrite P2).
    destruct (ensureStack_error m st n) as (stack & n3 & En & St1 & St2).
    destruct (unpackErr_error o2 n _ _ stack n3 E2 En)
      as (r' & U' & Fu & Sh & _ & Ms).
    rewrite U in U'. injection U' as -> _.
    exists stack. split; [exact St1 |]. split; [exact St2 |].
    split; [exact Fu |]. split; [exact Sh |].
    destruct (truthy (getProp o "msg")) eqn:M; [by apply Msg |].
    apply Ms. by rewrite P2.
  - intros F L. destruct I as [(T & _) | [(_ & _ & -> & ->) | (_ & L' & _)]];
      [congruence | | lia].
    destruct (ensureStack_error EmptyString (errorStack n) (S n))
      as (stack & n3 & En & St1 & St2).
    destruct (unpackErr_error (<["err" := VError EmptyString (errorStack n)]> o2)
                (S n) _ _ stack n3 (getProp_insert_eq _ _ _) En)
      as (r' & U' & Fu & Sh & _ & Ms).
    rewrite U in U'. injection U' as -> _.
    exists stack. split; [exact St1 |]. split; [exact St2 |].
    split; [exact Fu |]. split; [exact Sh |].
    destruct (truthy (getProp o "msg")) eqn:M; [by apply Msg |].
    apply Ms. rewrite getProp_insert_ne by congruence. by rewrite P2.
Qed.

(** C4: of an admitted event, (a) when the level is error or above and
    no [err] was supplied, the record handed on has [fullStack] and
    [shortStack] made from the stack of an Error constructed during the
    call; (b) when an Error was supplied, [fullStack] is its stack (the
    one captured during the call when it has none) split into lines
    without the first, [shortStack] is [fullStack] without the lines that
    contain /node_modules/, in the same order, [msg] is the message of
    the Error when the event has no truthy [msg], and [err] is gone. *)
Theorem write_error_enrichment (li : Z) (ev : gmap string Value)
    (response : option ResponseWrapper) (lg : Logger) (w : World) :
  admitted li lg w = true ->
  (errorLevel <= li ->
   truthy (getProp (spread (presets lg) ev) "err") = false ->
   exists r w1 stack,
     write' li (VObj ev) response lg w = route' li r lg w1
     /\ (forall s, errorStack (errorsMade w) = Some s -> s <> EmptyString ->
           stack = s)
     /\ (errorStack (errorsMade w) = None
         \/ errorStack (errorsMade w) = Some EmptyString ->
         stack = default "<no error stack>" (errorStack (S (errorsMade w))))
     /\ r !! "fullStack" = Some (VArr (VStr <$> tail (splitLines stack)))
     /\ r !! "shortStack"
        = Some (VArr (VStr <$> List.filter hasNodeModules
                                 (tail (splitLines stack))))
     /\ r !! "err" = None)
  /\ (forall m st,
      getProp (spread (presets lg) ev) "err" = VError m st ->
      exists r w1 stack,
        write' li (VObj ev) response lg w = route' li r lg w1
        /\ (forall s, st = Some s -> s <> EmptyString -> stack = s)
        /\ (st = None \/ st = Some EmptyString ->
            stack = default "<no error stack>" (errorStack (errorsMade w)))
        /\ r !! "fullStack" = Some (VArr (VStr <$> tail (splitLines stack)))
        /\ r !! "shortStack"
           = Some (VArr (VStr <$> List.filter hasNodeModules
                                    (tail (splitLines stack))))
        /\ sublist (List.filter hasNodeModules (tail (splitLines stack)))
             (tail (splitLines stack))
        /\ (forall line,
              line ∈ List.filter hasNodeModules (tail (splitLines stack))
              <-> line ∈ tail (splitLines stack)
                  /\ includes "/node_modules/" line = false)
        /\ (truthy (getProp (spread (presets lg) ev) "msg") = false ->
            r !! "msg" = Some (VStr m))
        /\ r !! "err" = None).
Proof.
  intros A.
  destruct (sendErrorId v4 response
              (spread (presets lg) (delete "req" ev)) w) as [o1 w1] eqn:Hsend.
  assert (P : forall k, k <> "errorId" -> k <> "req" ->
                getProp o1 k = getProp (spread (presets lg) ev) k).
  { intros k K1 K2. unfold getProp.
    rewrite (sendErrorId_other _ _ _ _ _ _ k Hsend) by done.
    by rewrite spread_lookup_ne. }
  rewrite (write_admitted _ _ _ _ _ _ _ _ _ _ A Hsend). unfold enrich.
  set (o2 := <["level" := levelAt li]> o1).
  assert (P2 : forall k, k <> "level" -> getProp o2 k = getProp o1 k)
    by (intros k K; apply getProp_insert_ne; congruence).
  split.
  - intros L F. unfold implicitErr.
    rewrite P2, P, F by done.
    assert (Lb : (errorLevel <=? li) = true) by lia. rewrite Lb. cbn [andb negb].
    destruct (ensureStack_error EmptyString (errorStack (errorsMade w))
                (S (errorsMade w))) as (stack & n1 & En & St1 & St2).
    destruct (unpackErr_error
                (<["err" := VError EmptyString (errorStack (errorsMade w))]> o2)
                (S (errorsMade w)) _ _ stack n1
                (getProp_insert_eq _ _ _) En)
      as (r & -> & Fu & Sh & Er & _).
    exists (attachReq (getProp ev "req") r). eexists. exists stack.
    rewrite !attachReq_other by done. by repeat split.
  - intros m st E. unfold implicitErr.
    assert (E2 : getProp o2 "err" = VError m st) by (by rewrite P2, P).
    rewrite E2. change (truthy (VError m st)) with true.
    rewrite andb_false_r.
    destruct (ensureStack_error m st (errorsMade w))
      as (stack & n1 & En & St1 & St2).
    destruct (unpackErr_error o2 (errorsMade w) _ _ stack n1 E2 En)
      as (r & -> & Fu & Sh & Er & Ms).
    exists (attachReq (getProp ev "req") r). eexists. exists stack.
    rewrite !attachReq_other by done.
    split; [reflexivity |]. split; [exact St1 |]. split; [exact St2 |].
    split; [exact Fu |]. split; [exact Sh |].
    split; [apply filter_sublist |].
    split; [intros line; apply filter_hasNodeModules |].
    split; [| exact Er].
    intros M. apply Ms. by rewrite P2, P.
Qed.

(** C2, amended: on a Logger that is not transient, a [write] below the
    threshold makes no delivery call and resolves with nothing, whatever
    the event; at or above the threshold, for an event whose [err] after
    merging is an Error or falsy, there is exactly one delivery call, of
    a single record.  That record is the presets merged with the event
    fields, but for the properties [write] sets itself: [level] is the
    name of the level; [errorId] is the one replied when a response
    wrapper is given; [req] is the projection of a truthy [req] of the
    event, and else that of the presets; an Error supplied as [err], or
    constructed at the error level and above when [err] is falsy, is
    unpacked into [fullStack] and [shortStack], gives [msg] where the
    merged [msg] is falsy, and is removed.  So the record has no truthy
    [err]; a falsy [err] supplied below the error level is delivered as
    supplied, together with the merged [msg], [fullStack] and
    [shortStack]. *)
Theorem write_plain_threshold (li : Z) (response : option ResponseWrapper)
    (lg : Logger) (w : World) :
  isTransient lg = false -> logCollector lg = None ->
  (li < currentLevelIndex w ->
   forall logData, exists w',
     write' li logData response lg w = (Fulfilled VUndefined, lg, w')
     /\ deliveries w' = deliveries w)
  /\ (currentLevelIndex w <= li ->
      forall ev, errTyped (getProp (spread (presets lg) ev) "err") = true ->
      let merged := spread (presets lg) ev in
      exists r w',
        write' li (VObj ev) response lg w
        = (transport (length (deliveries w)) (Single (VObj r) (tag lg)),
           lg, w')
        /\ deliveries w' = deliveries w ++ [Single (VObj r) (tag lg)]
        /\ (forall k, k ∉ assignedByWrite -> r !! k = merged !! k)
        /\ r !! "level" = Some (levelAt li)
        /\ r !! "errorId"
           = match response with
             | Some _ =>
                 Some (if truthy (getProp merged "errorId")
                       then getProp merged "errorId"
                       else VStr (v4 (uuids w)))
             | None => merged !! "errorId"
             end
        /\ r !! "req"
           = (if truthy (getProp ev "req")
              then Some (parseReq (getProp ev "req"))
              else presets lg !! "req")
        /\ truthy (getProp r "err") = false
        /\ (truthy (getProp merged "err") = true \/ errorLevel <= li ->
            r !! "err" = None)
        /\ (truthy (getProp merged "err") = false -> li < errorLevel ->
            r !! "err" = merged !! "err"
            /\ r !! "msg" = merged !! "msg"
            /\ r !! "fullStack" = merged !! "fullStack"
            /\ r !! "shortStack" = merged !! "shortStack")
        /\ (forall m st, getProp merged "err" = VError m st ->
            exists stack,
              (forall s, st = Some s -> s <> EmptyString -> stack = s)
              /\ (st = None \/ st = Some EmptyString ->
                  stack
                  = default "<no error stack>" (errorStack (errorsMade w)))
              /\ r !! "fullStack"
                 = Some (VArr (VStr <$> tail (splitLines stack)))
              /\ r !! "shortStack"
                 = Some (VArr (VStr <$> List.filter hasNodeModules
                                          (tail (splitLines stack))))
              /\ r !! "msg"
                 = if truthy (getProp merged "msg") then merged !! "msg"
                   else Some (VStr m))
        /\ (truthy (getProp merged "err") = false -> errorLevel <= li ->
            exists stack,
              (forall s, errorStack (errorsMade w) = Some s ->
                 s <> EmptyString -> stack = s)
              /\ (errorStack (errorsMade w) = None
                  \/ errorStack (errorsMade w) = Some EmptyString ->
                  stack
                  = default "<no error stack>"
                      (errorStack (S (errorsMade w))))
              /\ r !! "fullStack"
                 = Some (VArr (VStr <$> tail (splitLines stack)))
              /\ r !! "shortStack"
                 = Some (VArr (VStr <$> List.filter hasNodeModules
                                          (tail (splitLines stack))))
              /\ r !! "msg"
                 = if truthy (getProp merged "msg") then merged !! "msg"
                   else Some (VStr EmptyString))).
Proof.
  intros NT NC. split.
  - intros L logData. destruct (isObject logData) eqn:O.
    + destruct logData as [| | | | | |ev|]; try discriminate.
      assert (A : admitted li lg w = false) by (rewrite NT; lia).
      rewrite (write_dropped _ _ _ _ _ _ _ _ A). eexists. split; [done |].
      destruct (sendErrorId _ _ _ _) as [o1 w1] eqn:S.
      destruct (sendErrorId_world _ _ _ _ _ _ S) as (_ & D & _). exact D.
    + rewrite (write_not_object _ _ _ _ _ _ _ _ O). eexists. by split.
  - intros L ev T merged.
    assert (A : admitted li lg w = true) by (rewrite NT; lia).
    destruct (sendErrorId v4 response
                (spread (presets lg) (delete "req" ev)) w) as [o1 w1] eqn:S.
    destruct (write_routes v4 errorStack transport _ _ _ _ _ _ _ A T S)
      as (r & n & E & ->).
    destruct (sendErrorId_world _ _ _ _ _ _ S) as (_ & D & _).
    assert (Lk : forall k, k <> "errorId" -> k <> "req" ->
                   o1 !! k = merged !! k).
    { intros k K1 K2. rewrite (sendErrorId_other _ _ _ _ _ _ k S) by done.
      subst merged. by rewrite spread_lookup_ne. }
    assert (Gp : forall k, k <> "errorId" -> k <> "req" ->
                   getProp o1 k = getProp merged k)
      by (intros k K1 K2; unfold getProp; by rewrite Lk).
    assert (Id : spread (presets lg) (delete "req" ev) !! "errorId"
                 = merged !! "errorId")
      by (subst merged; by rewrite spread_lookup_ne).
    rewrite route_single by (by left). exists r. eexists.
    split; [cbn [setErrorsMade deliveries]; rewrite D; reflexivity |].
    split; [cbn; by rewrite D |].
    split.
    { intros k Hk. rewrite (enrich_other _ _ _ _ _ _ _ _ E Hk).
      unfold assignedByWrite in Hk. rewrite !not_elem_of_cons in Hk.
      destruct Hk as (_ & _ & _ & _ & _ & K6 & K7 & _). by apply Lk. }
    split; [exact (enrich_level _ _ _ _ _ _ _ E) |].
    split.
    { rewrite (enrich_errorId _ _ _ _ _ _ _ E).
      rewrite (sendErrorId_errorId _ _ _ _ _ _ S).
      unfold getProp. rewrite Id. reflexivity. }
    split.
    { rewrite (enrich_req _ _ _ _ _ _ _ E).
      destruct (truthy (getProp ev "req")); [reflexivity |].
      rewrite (sendErrorId_other _ _ _ _ _ _ "req" S) by done.
      unfold spread. rewrite lookup_union, lookup_delete_eq.
      by destruct (presets lg !! "req"). }
    destruct (enrich_err _ _ _ _ _ _ _ E) as (E1 & E2 & E3).
    rewrite Gp in E2, E3 by done.
    split; [exact E1 |]. split; [exact E2 |].
    split.
    { intros F Lt.
      assert (F1 : truthy (getProp o1 "err") = false) by (by rewrite Gp).
      rewrite !(enrich_plain _ _ _ _ _ _ _ _ E F1 Lt) by done.
      rewrite !Lk by done. done. }
    destruct (enrich_unpacked _ _ _ _ _ _ E) as [U1 U2].
    rewrite !Gp in U1, U2 by done. rewrite (Lk "msg") in U1, U2 by done.
    split; [exact U1 | exact U2].
Qed.

End Enrichment.

(** ** The timer helper and the transient Logger *)

Section Scenarios.

Variable v4 : nat -> string.
Variable errorStack : nat -> option string.
Variable NODE_ENV : option string.
Variable transport : nat -> Delivery -> Settled.
Variable numberToString : Z -> string.
Variable zone : Zone.

Local Abbreviation write' := (write v4 errorStack transport).
Local Abbreviation route' := (route transport).
Local Abbreviation writeTimeEnd' :=
  (writeTimeEnd v4 errorStack transport numberToString zone).
Local Abbreviation step' :=
  (LoggerStep v4 errorStack transport numberToString zone).
Local Abbreviation admitted li lg w :=
  ((currentLevelIndex w <=? li) || isTransient lg).


(** Once triggered, a Logger is not changed by [write]. *)
Lemma write_triggered (li : Z) (logData : Value)
    (response : option ResponseWrapper) (lg lg' : Logger) (w w' : World)
    (outcome : Settled) :
  isTransientTriggered lg = true ->
  write' li logData response lg w = (outcome, lg', w') -> lg' = lg.
Proof.
  intros T H. destruct (isObject logData) eqn:O.
  - destruct logData as [| | | | | |ev|]; try discriminate.
    destruct (admitted li lg w) eqn:A.
    + destruct (sendErrorId v4 response
                  (spread (presets lg) (delete "req" ev)) w)
        as [o1 w1] eqn:Sd.
      rewrite (write_admitted _ _ _ _ _ _ _ _ _ _ A Sd) in H.
      destruct (enrich _ _ _ _ _) as [[r|e] n].
      * by destruct (route_keeps _ _ _ _ _ _ _ _ H) as (_ & _ & _ & _ & _ & K);
          destruct (K T).
      * by injection H as _ <- _.
    + rewrite (write_dropped _ _ _ _ _ _ _ _ A) in H. by injection H as _ <- _.
  - rewrite (write_not_object _ _ _ _ _ _ _ _ O) in H. by injection H as _ <- _.
Qed.

Lemma step_triggered (lg lg' : Logger) :
  step' lg lg' -> isTransientTriggered lg = true ->
  isTransientTriggered lg' = true
  /\ logCollector lg' = logCollector lg
  /\ tag lg' = tag lg
  /\ isTransient lg' = isTransient lg
  /\ presets lg' = presets lg.
Proof.
  intros St T. destruct St as [li d rs lg w o lg' w' H|now label lg|
                               now label level extra lg w o lg' w' H].
  - by rewrite (write_triggered _ _ _ _ _ _ _ _ T H).
  - unfold time. by destruct (String.eqb label "__proto__").
  - unfold writeTimeEnd in H.
    destruct (timers lg !! label);
      [destruct (formatMilliseconds _ _); [| discriminate] |];
      (destruct (truthy _); [destruct (toStr _ _); [| discriminate] |]);
      injection H as H; by rewrite (write_triggered _ _ _ _ _ _ _ _ T H).
Qed.

Lemma steps_triggered (lg lg' : Logger) :
  rtc step' lg lg' -> isTransientTriggered lg = true ->
  isTransientTriggered lg' = true
  /\ logCollector lg' = logCollector lg
  /\ tag lg' = tag lg
  /\ isTransient lg' = isTransient lg
  /\ presets lg' = presets lg.
Proof.
  induction 1 as [lg|lg lg1 lg2 St _ IH]; intros T; [done |].
  destruct (step_triggered _ _ St T) as (T1 & C1 & G1 & I1 & P1).
  destruct (IH T1) as (T2 & C2 & G2 & I2 & P2).
  repeat split; congruence.
Qed.

(** A transient Logger that has not triggered buffers what is below the
    threshold. *)
Lemma write_buffers (li : Z) (ev : gmap string Value) (lg : Logger)
    (w : World) (collected : list Value) :
  isTransient lg = true -> logCollector lg = Some collected ->
  isTransientTriggered lg = false -> li < currentLevelIndex w ->
  errTyped (getProp (spread (presets lg) ev) "err") = true ->
  exists r n,
    write' li (VObj ev) None lg w
    = (Fulfilled VUndefined,
       setLogCollector (Some (collected ++ [VObj r])) lg, setErrorsMade n w)
    /\ r !! "level" = Some (levelAt li)
    /\ (forall k, k ∉ assignedByWrite -> r !! k = spread (presets lg) ev !! k).
Proof.
  intros Tr C NT L Ty.
  assert (A : admitted li lg w = true) by (rewrite Tr; apply orb_true_r).
  destruct (write_routes v4 errorStack transport li ev _ None lg w w A Ty
              eq_refl) as (r & n & E & ->).
  exists r, n. split; [by apply route_buffer |].
  split; [exact (enrich_level _ _ _ _ _ _ _ E) |].
  intros k Hk. rewrite (enrich_other _ _ _ _ _ _ _ _ E Hk).
  unfold assignedByWrite in Hk. rewrite !not_elem_of_cons in Hk.
  apply spread_lookup_ne. by destruct Hk as (_ & _ & _ & _ & _ & _ & K & _).
Qed.

Lemma create_fresh (options : LaLogOptions) (lg : Logger) (w w' : World) :
  create v4 NODE_ENV options w = (lg, w') ->
  isTransient lg = opt_isTransient options
  /\ logCollector lg = (if opt_isTransient options then Some [] else None)
  /\ isTransientTriggered lg = false
  /\ currentLevelIndex w' = currentLevelIndex w
  /\ deliveries w' = deliveries w.
Proof.
  unfold create. intros H.
  destruct (opt_addTrackId options && _); by injection H as <- <-.
Qed.

(** C1: on a transient Logger made while the threshold is "error",
    [trace] then [info] put two records in the buffer and make no
    delivery call; [error] then makes exactly one delivery call, a batch
    of the three records in the order of the calls under the tag of the
    Logger, and sets the trigger; when that delivery succeeds the buffer
    is dropped.  From then on, after any further calls, every [write] of
    an event delivers one single record at once, at any level and
    threshold, and leaves the Logger as it is: nothing is buffered
    again.  The events are record-like, with [err] an Error or falsy. *)
Theorem transient_state_machine (options : LaLogOptions)
    (e1 e2 e3 : gmap string Value) (lg0 lg1 lg2 lg3 : Logger)
    (w0 w1 w2 w3 w4 : World) (out1 out2 out3 : Settled) :
  opt_isTransient options = true ->
  currentLevelIndex w0 = errorLevel ->
  create v4 NODE_ENV options w0 = (lg0, w1) ->
  errTyped (getProp (spread (presets lg0) e1) "err") = true ->
  errTyped (getProp (spread (presets lg0) e2) "err") = true ->
  errTyped (getProp (spread (presets lg0) e3) "err") = true ->
  write' 0 (VObj e1) None lg0 w1 = (out1, lg1, w2) ->
  write' 1 (VObj e2) None lg1 w2 = (out2, lg2, w3) ->
  write' 3 (VObj e3) None lg2 w3 = (out3, lg3, w4) ->
  exists r1 r2 r3,
    let batch := Batch [VObj r1; VObj r2; VObj r3] (tag lg0) in
    logCollector lg2 = Some [VObj r1; VObj r2]
    /\ deliveries w3 = deliveries w0
    /\ out1 = Fulfilled VUndefined /\ out2 = Fulfilled VUndefined
    /\ r1 !! "level" = Some (VStr "trace")
    /\ r2 !! "level" = Some (VStr "info")
    /\ r3 !! "level" = Some (VStr "error")
    /\ (forall k, k ∉ assignedByWrite ->
          r1 !! k = spread (presets lg0) e1 !! k
          /\ r2 !! k = spread (presets lg0) e2 !! k
          /\ r3 !! k = spread (presets lg0) e3 !! k)
    /\ deliveries w4 = deliveries w0 ++ [batch]
    /\ isTransientTriggered lg3 = true
    /\ (forall v, transport (length (deliveries w0)) batch = Fulfilled v ->
          out3 = Fulfilled VUndefined /\ logCollector lg3 = None)
    /\ (forall lg', rtc step' lg3 lg' ->
        forall li ev response w,
          errTyped (getProp (spread (presets lg0) ev) "err") = true ->
          exists r w',
            write' li (VObj ev) response lg' w
            = (transport (length (deliveries w)) (Single (VObj r) (tag lg0)),
               lg', w')
            /\ deliveries w' = deliveries w ++ [Single (VObj r) (tag lg0)]
            /\ r !! "level" = Some (levelAt li)).
Proof.
  intros Tr Th Hc T1 T2 T3 H1 H2 H3.
  destruct (create_fresh _ _ _ _ Hc) as (I0 & C0 & N0 & L0 & D0).
  rewrite Tr in I0, C0. rewrite Th in L0. change errorLevel with 3 in L0.
  (* trace *)
  destruct (write_buffers 0 e1 lg0 w1 [] I0 C0 N0 ltac:(lia) T1)
    as (r1 & n1 & W1 & Lv1 & K1).
  assert (X1 := eq_trans (eq_sym W1) H1). injection X1 as <- <- <-.
  (* info *)
  destruct (write_buffers 1 e2 (setLogCollector (Some ([] ++ [VObj r1])) lg0)
              (setErrorsMade n1 w1) _ I0 eq_refl N0 ltac:(cbn; lia) T2)
    as (r2 & n2 & W2 & Lv2 & K2).
  assert (X2 := eq_trans (eq_sym W2) H2). injection X2 as <- <- <-.
  (* error *)
  set (lgb := setLogCollector (Some (([] ++ [VObj r1]) ++ [VObj r2]))
                (setLogCollector (Some ([] ++ [VObj r1])) lg0)) in *.
  set (wb := setErrorsMade n2 (setErrorsMade n1 w1)) in *.
  assert (A3 : admitted 3 lgb wb = true) by (cbn; rewrite I0; apply orb_true_r).
  destruct (write_routes v4 errorStack transport 3 e3 _ None lgb wb wb A3 T3
              eq_refl) as (r3 & n3 & E3 & W3).
  assert (X3 := eq_trans (eq_sym W3) H3). clear H3. rename X3 into H3.
  rewrite (route_flush transport 3 r3 lgb (setErrorsMade n3 wb)
             (([] ++ [VObj r1]) ++ [VObj r2]) eq_refl N0 ltac:(cbn; lia)) in H3.
  exists r1, r2, r3. cbn zeta.
  assert (Hpass : forall lg3',
            isTransientTriggered lg3' = true -> isTransient lg3' = true ->
            tag lg3' = tag lg0 -> presets lg3' = presets lg0 ->
            forall lg', rtc step' lg3' lg' ->
            forall li ev response w,
              errTyped (getProp (spread (presets lg0) ev) "err") = true ->
              exists r w',
                write' li (VObj ev) response lg' w
                = (transport (length (deliveries w))
                     (Single (VObj r) (tag lg0)), lg', w')
                /\ deliveries w' = deliveries w ++ [Single (VObj r) (tag lg0)]
                /\ r !! "level" = Some (levelAt li)).
  { intros lg3' G1 G2 G3 G4 lg' R li ev response w Ty.
    destruct (steps_triggered _ _ R G1) as (G1' & _ & G3' & G2' & G4').
    rewrite G2 in G2'. rewrite G3 in G3'. rewrite G4 in G4'.
    assert (A : admitted li lg' w = true) by (rewrite G2'; apply orb_true_r).
    rewrite <- G4' in Ty.
    destruct (sendErrorId v4 response
                (spread (presets lg') (delete "req" ev)) w)
      as [o1 wr] eqn:Sd.
    destruct (write_routes v4 errorStack transport _ _ _ _ _ _ _ A Ty Sd)
      as (r & n & E & ->).
    destruct (sendErrorId_world _ _ _ _ _ _ Sd) as (_ & Dl & _).
    rewrite route_single by (by right). rewrite G3'.
    exists r. eexists.
    split; [cbn [setErrorsMade deliveries]; rewrite Dl; reflexivity |].
    split; [cbn; by rewrite Dl |].
    exact (enrich_level _ _ _ _ _ _ _ E). }
  split; [reflexivity |]. split; [exact D0 |].
  split; [reflexivity |]. split; [reflexivity |].
  split; [exact Lv1 |]. split; [exact Lv2 |].
  split; [exact (enrich_level _ _ _ _ _ _ _ E3) |].
  split.
  { intros k Hk. split; [exact (K1 k Hk) |]. split; [exact (K2 k Hk) |].
    rewrite (enrich_other _ _ _ _ _ _ _ _ E3 Hk).
    unfold assignedByWrite in Hk. rewrite !not_elem_of_cons in Hk.
    apply spread_lookup_ne. by destruct Hk as (_ & _ & _ & _ & _ & _ & K & _). }
  change (deliveries (setErrorsMade n3 wb)) with (deliveries w1) in H3.
  change (tag lgb) with (tag lg0) in H3.
  change ((([] ++ [VObj r1]) ++ [VObj r2]) ++ [VObj r3])
    with [VObj r1; VObj r2; VObj r3] in H3.
  rewrite D0 in H3.
  destruct (transport (length (deliveries w0))
              (Batch [VObj r1; VObj r2; VObj r3] (tag lg0))) as [v|e] eqn:Tp;
    injection H3 as <- <- <-; cbn [addDelivery deliveries];
    change (deliveries (setErrorsMade n3 wb)) with (deliveries w1);
    (split; [by rewrite D0 |]); (split; [reflexivity |]); split.
  - intros _ _. split; reflexivity.
  - apply Hpass; [reflexivity | exact I0 | reflexivity | reflexivity].
  - intros v [=].
  - apply Hpass; [reflexivity | exact I0 | reflexivity | reflexivity].
Qed.

End Scenarios.

(** * Concrete runs *)

(** An [err] that is a string has no [stack] and cannot be given one:
    the assignment of line 291 throws in strict code, [write] rejects
    and nothing is delivered. *)
Example write_string_err_rejects :
  Sample.write 3 (VObj (<["err" := VStr "disk full"]> ∅)) None
    Sample.plain.1 Sample.plain.2
  = (Rejected typeError, Sample.plain.1, setErrorsMade 1 Sample.plain.2).
Proof. vm_compute. reflexivity. Qed.

(** When the batch delivery rejects, line 315 is not reached: the buffer
    stays, the trigger is set all the same. *)
Example flush_rejected_keeps_buffer :
  let failing (n : nat) (d : Delivery) := Rejected (VStr "offline") in
  let after :=
    write Sample.v4 Sample.errorStack failing 3
      (VObj (Sample.message "failed")) None Sample.transient.1
      Sample.transient.2 in
  after.1.1 = Rejected (VStr "offline")
  /\ isTransientTriggered after.1.2 = true
  /\ length <$> logCollector after.1.2 = Some 1%nat
  /\ length (deliveries after.2) = 1%nat.
Proof. vm_compute. repeat split. Qed.

(** The event wins over the preset: the Logger has the preset
    [module: "routes"], the event says [module: "billing"], and the
    record delivered says "billing". *)
Lemma write_preset_value_loses :
  let ev := <["module" := VStr "billing"]> (Sample.message "paid") in
  let after := Sample.write 3 (VObj ev) None Sample.plain.1 Sample.plain.2 in
  presets Sample.plain.1 !! "module" = Some (VStr "routes")
  /\ ev !! "module" = Some (VStr "billing")
  /\ Sample.sent "module" <$> deliveries after.2
     = [[Some (VStr "billing")]]
  /\ Sample.sent "module" <$> deliveries after.2
     <> [[presets Sample.plain.1 !! "module"]].
Proof.
  cbv zeta. split; [reflexivity |]. split; [reflexivity |].
  split; [vm_compute; reflexivity |]. vm_compute. discriminate.
Qed.

(** A falsy [err] below the error level stays in the record: with the
    threshold at "trace", [info({msg: "done", err: null})] on a Logger
    that is not transient delivers a record with [err: null], and
    [info({msg: "done", err: undefined})] one with the property [err]
    set to [undefined]. *)
Lemma write_keeps_falsy_err :
  let send (err : Value) :=
    Sample.write 1 (VObj (<["err" := err]> (Sample.message "done"))) None
      Sample.plain.1 Sample.verbose in
  isTransient Sample.plain.1 = false
  /\ currentLevelIndex Sample.verbose <= 1
  /\ Sample.sent "err" <$> deliveries (send VNull).2 = [[Some VNull]]
  /\ Sample.sent "err" <$> deliveries (send VUndefined).2
     = [[Some VUndefined]].
Proof.
  cbv zeta. split; [reflexivity |]. split; [vm_compute; discriminate |].
  split; vm_compute; reflexivity.
Qed.


(** Two counts that are not rendered as their hours, minutes, seconds
    and milliseconds.  Where the clocks have moved since the epoch the
    hours are off: 15778800000 ms are 4383 hours, 15 hours after whole
    days, and in [Sample.eastern] the text says 14.  From the year 10000
    on the ISO text has a year of six digits and a sign, and the twelve
    characters cut from it begin in the date: in UTC,
    253402300800000 ms give "01T00:00:00.". *)
Lemma duration_text_not_clock :
  15778800000 / 3600000 mod 24 = 15
  /\ formatMilliseconds Sample.eastern 15778800000 = Some "14:00:00.000"
  /\ formatMilliseconds Sample.zone 15778800000 = Some "15:00:00.000"
  /\ formatMilliseconds Sample.zone 253402300800000 = Some "01T00:00:00.".
Proof. repeat split; vm_compute; reflexivity. Qed.

Lemma write_malformed_event_witness :
  isObject (VStr "oops") = false
  /\ exists w',
       Sample.write 3 (VStr "oops") None Sample.plain.1 Sample.plain.2
       = (Fulfilled VUndefined, Sample.plain.1, w')
       /\ consoleErrors w'
          = ["Expecting an object in logger write method but got "
             +:+ quoted "string"]
       /\ deliveries w' = [].
Proof.
  split; [reflexivity |].
  exact (write_malformed_event Sample.v4 Sample.errorStack Sample.transport
           3 (VStr "oops") None Sample.plain.1 Sample.plain.2 eq_refl).
Defined.

Lemma write_malformed_no_reply_witness :
  isObject (VNum 42) = false
  /\ exists outcome lg' w',
       Sample.write 3 (VNum 42) (Some (mkResponseWrapper 7%nat 500))
         Sample.plain.1 Sample.plain.2
       = (outcome, lg', w')
       /\ replies w' = []
       /\ uuids w' = 0%nat.
Proof.
  split; [reflexivity |].
  exact (write_malformed_no_reply Sample.v4 Sample.errorStack
           Sample.transport 3 (VNum 42) (mkResponseWrapper 7%nat 500)
           Sample.plain.1 Sample.plain.2 eq_refl).
Defined.

Lemma write_plain_threshold_witness :
  isTransient Sample.plain.1 = false
  /\ logCollector Sample.plain.1 = None
  /\ 1 < currentLevelIndex Sample.plain.2
  /\ currentLevelIndex Sample.plain.2 <= 3
  /\ errTyped
       (getProp (spread (presets Sample.plain.1) (Sample.message "down"))
          "err") = true
  /\ (exists w',
        Sample.write 1 (VObj (Sample.message "up")) None
          Sample.plain.1 Sample.plain.2
        = (Fulfilled VUndefined, Sample.plain.1, w')
        /\ deliveries w' = [])
  /\ (exists r w',
        deliveries w' = [Single (VObj r) "svc-test"]
        /\ r !! "module" = Some (VStr "routes")
        /\ r !! "level" = Some (VStr "error")
        /\ r !! "msg" = Some (VStr "down")
        /\ r !! "fullStack"
           = Some (VArr (VStr <$> tail (splitLines Sample.stackTrace)))
        /\ r !! "errorId" = None
        /\ r !! "req" = None
        /\ r !! "err" = None
        /\ Sample.write 3 (VObj (Sample.message "down")) None
             Sample.plain.1 Sample.plain.2
           = (Fulfilled (VObj ∅), Sample.plain.1, w')).
Proof.
  assert (L1 : 1 < currentLevelIndex Sample.plain.2) by (vm_compute; reflexivity).
  assert (L3 : currentLevelIndex Sample.plain.2 <= 3)
    by (vm_compute; discriminate).
  assert (Ty : errTyped
                 (getProp
                    (spread (presets Sample.plain.1) (Sample.message "down"))
                    "err") = true) by (vm_compute; reflexivity).
  destruct (write_plain_threshold Sample.v4 Sample.errorStack Sample.transport
              1 None Sample.plain.1 Sample.plain.2 eq_refl eq_refl)
    as [Below _].
  destruct (write_plain_threshold Sample.v4 Sample.errorStack Sample.transport
              3 None Sample.plain.1 Sample.plain.2 eq_refl eq_refl)
    as [_ Above].
  split; [reflexivity |]. split; [reflexivity |].
  split; [exact L1 |]. split; [exact L3 |]. split; [exact Ty |].
  split; [exact (Below L1 (VObj (Sample.message "up"))) |].
  destruct (Above L3 (Sample.message "down") Ty)
    as (r & w' & W & D & K & Lv & Id & Rq & _ & Gone & _ & _ & Made).
  destruct Made as (stack & St & _ & Fu & _ & Ms);
    [vm_compute; reflexivity | vm_compute; discriminate |].
  assert (E : stack = Sample.stackTrace)
    by (apply St; [reflexivity | discriminate]).
  exists r, w'. split; [exact D |].
  split; [rewrite K; [reflexivity | apply (bool_decide_unpack _); exact I] |].
  split; [exact Lv |]. split; [exact Ms |].
  split; [by rewrite <- E |].
  split; [exact Id |]. split; [exact Rq |].
  split; [apply Gone; right; vm_compute; discriminate |]. exact W.
Defined.


Lemma write_event_value_wins_witness :
  let ev := <["module" := VStr "billing"]> (Sample.message "paid") in
  presets Sample.plain.1 !! "module" = Some (VStr "routes")
  /\ ev !! "module" = Some (VStr "billing")
  /\ ("module" ∉ assignedByWrite)
  /\ (exists r w1,
        Sample.write 3 (VObj ev) None Sample.plain.1 Sample.plain.2
        = route Sample.transport 3 r Sample.plain.1 w1
        /\ r !! "module" = Some (VStr "billing")).
Proof.
  cbv zeta.
  assert (K : "module" ∉ assignedByWrite)
    by (apply (bool_decide_unpack _); exact I).
  assert (P : presets Sample.plain.1 !! "module" = Some (VStr "routes"))
    by (vm_compute; reflexivity).
  assert (V : (<["module" := VStr "billing"]> (Sample.message "paid")
               : gmap string Value) !! "module" = Some (VStr "billing"))
    by (vm_compute; reflexivity).
  assert (A : (currentLevelIndex Sample.plain.2 <=? 3)
              || isTransient Sample.plain.1 = true) by (vm_compute; reflexivity).
  assert (T : errTyped
                (getProp
                   (spread (presets Sample.plain.1)
                      (<["module" := VStr "billing"]> (Sample.message "paid")))
                   "err") = true) by (vm_compute; reflexivity).
  split; [exact P |]. split; [exact V |]. split; [exact K |].
  destruct (write_event_value_wins Sample.v4 Sample.errorStack
              Sample.transport 3
              (<["module" := VStr "billing"]> (Sample.message "paid")) None
              Sample.plain.1 Sample.plain.2 "module" (VStr "routes")
              (VStr "billing") P V K A T)
    as (r & w1 & W & R & _).
  exists r, w1. split; [exact W | exact R].
Defined.

Lemma write_error_enrichment_witness :
  let boom := <["err" := VError "boom" (Some Sample.stackTrace)]> ∅ in
  (currentLevelIndex Sample.plain.2 <=? 3) || isTransient Sample.plain.1 = true
  /\ getProp (spread (presets Sample.plain.1) boom) "err"
     = VError "boom" (Some Sample.stackTrace)
  /\ truthy (getProp (spread (presets Sample.plain.1) boom) "msg") = false
  /\ (exists r w1,
        Sample.write 3 (VObj boom) None Sample.plain.1 Sample.plain.2
        = route Sample.transport 3 r Sample.plain.1 w1
        /\ r !! "fullStack"
           = Some (VArr [VStr "    at handler (/srv/app/routes.js:10:5)";
                         VStr "    at next (/srv/app/node_modules/express/lib/router.js:2:1)";
                         VStr "    at main (/srv/app/index.js:3:1)"])
        /\ r !! "shortStack"
           = Some (VArr [VStr "    at handler (/srv/app/routes.js:10:5)";
                         VStr "    at main (/srv/app/index.js:3:1)"])
        /\ r !! "msg" = Some (VStr "boom")
        /\ r !! "err" = None).
Proof.
  cbv zeta.
  assert (A : (currentLevelIndex Sample.plain.2 <=? 3)
              || isTransient Sample.plain.1 = true) by (vm_compute; reflexivity).
  assert (E : getProp
                (spread (presets Sample.plain.1)
                   (<["err" := VError "boom" (Some Sample.stackTrace)]> ∅)) "err"
              = VError "boom" (Some Sample.stackTrace)) by (vm_compute; reflexivity).
  assert (M : truthy
                (getProp
                   (spread (presets Sample.plain.1)
                      (<["err" := VError "boom" (Some Sample.stackTrace)]> ∅))
                   "msg") = false) by (vm_compute; reflexivity).
  split; [exact A |]. split; [exact E |]. split; [exact M |].
  destruct (write_error_enrichment Sample.v4 Sample.errorStack
              Sample.transport 3
              (<["err" := VError "boom" (Some Sample.stackTrace)]> ∅) None
              Sample.plain.1 Sample.plain.2 A) as [_ Supplied].
  destruct (Supplied "boom" (Some Sample.stackTrace) E)
    as (r & w1 & stack & W & Own & _ & Fu & Sh & _ & _ & Ms & Er).
  assert (St : stack = Sample.stackTrace).
  { apply (Own Sample.stackTrace eq_refl). vm_compute. discriminate. }
  subst stack. exists r, w1.
  split; [exact W |]. split; [exact Fu |]. split; [exact Sh |].
  split; [exact (Ms M) | exact Er].
Defined.


Lemma transient_state_machine_witness :
  opt_isTransient (Sample.options true) = true
  /\ currentLevelIndex (initialWorld VUndefined) = errorLevel
  /\ errTyped
       (getProp (spread (presets Sample.transient.1) (Sample.message "start"))
          "err") = true
  /\ (exists r1 r2 r3,
        logCollector Sample.afterInfo.1.2 = Some [VObj r1; VObj r2]
        /\ deliveries Sample.afterInfo.2 = []
        /\ deliveries Sample.afterError.2
           = [Batch [VObj r1; VObj r2; VObj r3] "svc-test"]
        /\ logCollector Sample.afterError.1.2 = None
        /\ isTransientTriggered Sample.afterError.1.2 = true).
Proof.
  split; [reflexivity |]. split; [reflexivity |].
  split; [vm_compute; reflexivity |].
  destruct (transient_state_machine Sample.v4 Sample.errorStack
              Sample.NODE_ENV Sample.transport Sample.numberToString
              Sample.zone (Sample.options true)
              (Sample.message "start") (Sample.message "step")
              (Sample.message "failed")
              Sample.transient.1 Sample.afterTrace.1.2 Sample.afterInfo.1.2
              Sample.afterError.1.2
              (initialWorld VUndefined) Sample.transient.2
              Sample.afterTrace.2 Sample.afterInfo.2 Sample.afterError.2
              Sample.afterTrace.1.1 Sample.afterInfo.1.1
              Sample.afterError.1.1)
    as (r1 & r2 & r3 & C & D & _ & _ & _ & _ & _ & _ & Dl & Tg & Ok & _);
    try (vm_compute; reflexivity).
  exists r1, r2, r3. split; [exact C |]. split; [exact D |].
  split; [exact Dl |]. split; [| exact Tg].
  exact (proj2 (Ok (VObj ∅) eq_refl)).
Defined.

(** * Further properties *)

(** ** The level registry *)

Lemma indexFrom_bounds (s : string) (l : list string) (i : Z) :
  indexFrom i l s = -1 \/ i <= indexFrom i l s < i + Z.of_nat (length l).
Proof.
  revert i. induction l as [|x r IH]; intros i; cbn [indexFrom length].
  - by left.
  - destruct (String.eqb x s); [right; lia |].
    destruct (IH (i + 1)) as [E|E]; [left | right]; lia.
Qed.

Lemma indexOf_bounds (v : Value) :
  indexOf v = -1 \/ 0 <= indexOf v < Z.of_nat (length levels).
Proof.
  destruct v; try (by left). cbn [indexOf].
  destruct (indexFrom_bounds s levels 0) as [E|E]; [by left | right; lia].
Qed.

Lemma levelAt_indexOf (s : string) :
  s ∈ levels -> levelAt (indexOf (VStr s)) = VStr s.
Proof.
  intros Hs. destruct (indexFrom_elem s levels 0 ltac:(lia) Hs) as [Hle Hl].
  unfold levelAt. cbn [indexOf].
  assert (Hn : (indexFrom 0 levels s <? 0) = false) by lia.
  rewrite Hn. rewrite Z.sub_0_r in Hl. by rewrite Hl.
Qed.

Lemma indexOf_levelAt (i : Z) :
  0 <= i < Z.of_nat (length levels) ->
  indexOf (levelAt i) = i /\ exists s, s ∈ levels /\ levelAt i = VStr s.
Proof.
  intros H. cbn in H.
  assert (C : i = 0 \/ i = 1 \/ i = 2 \/ i = 3 \/ i = 4 \/ i = 5) by lia.
  destruct C as [->|[->|[->|[->|[->| ->]]]]];
    (split; [reflexivity |]); eexists;
    (split; [| reflexivity]); apply (bool_decide_unpack _); exact I.
Qed.

Lemma setLevel_valid (v : Value) (w : World) :
  validThreshold w -> validThreshold (setLevel v w).2.
Proof.
  unfold setLevel, validThreshold. intros H.
  destruct (negb (truthy v)); [exact H |].
  destruct (indexOf_bounds v) as [E|E].
  - rewrite E. exact H.
  - assert (B : (0 <=? indexOf v) = true) by lia. rewrite B. exact E.
Qed.

(** X3: the threshold a process starts with is the index of
    [LALOG_LEVEL] when that is one of the six level names, so that
    [getLevel] answers that name; for any other value of the variable,
    unset included, it is the index of "error". *)
Theorem getInitialLogLevel_fallback (laLogLevel : Value) :
  (forall s, s ∈ levels -> laLogLevel = VStr s ->
     getInitialLogLevel laLogLevel = indexOf (VStr s)
     /\ getLevel (initialWorld laLogLevel) = VStr s)
  /\ ((forall s, s ∈ levels -> laLogLevel <> VStr s) ->
      getInitialLogLevel laLogLevel = errorLevel
      /\ getLevel (initialWorld laLogLevel) = VStr "error").
Proof.
  unfold getLevel, initialWorld, getInitialLogLevel. cbn [currentLevelIndex].
  split.
  - intros s Hs ->. cbn [includesLevel]. rewrite bool_decide_eq_true_2 by done.
    split; [reflexivity |]. by apply levelAt_indexOf.
  - intros Hn.
    assert (E : includesLevel laLogLevel = false).
    { destruct laLogLevel; try reflexivity. cbn [includesLevel].
      apply bool_decide_eq_false_2. intros Hs. exact (Hn _ Hs eq_refl). }
    rewrite E. by split.
Qed.

Lemma getInitialLogLevel_fallback_witness :
  "fatal" ∈ levels
  /\ getInitialLogLevel (VStr "fatal") = 4
  /\ getLevel (initialWorld (VStr "fatal")) = VStr "fatal"
  /\ getInitialLogLevel (VStr "verbose") = 3
  /\ getLevel (initialWorld VUndefined) = VStr "error".
Proof.
  assert (Hf : "fatal" ∈ levels) by (apply (bool_decide_unpack _); exact I).
  split; [exact Hf |].
  destruct (getInitialLogLevel_fallback (VStr "fatal")) as [Named _].
  destruct (Named "fatal" Hf eq_refl) as [N1 N2].
  split; [exact N1 |]. split; [exact N2 |].
  destruct (getInitialLogLevel_fallback (VStr "verbose")) as [_ Other].
  destruct (getInitialLogLevel_fallback VUndefined) as [_ Unset].
  split.
  - apply Other. intros s Hs E. injection E as <-. revert Hs.
    apply (bool_decide_unpack _). exact I.
  - apply Unset. intros s Hs E. discriminate E.
Defined.

Lemma setLevel_named (s : string) (w : World) :
  s ∈ levels ->
  setLevel (VStr s) w = (getLevel w, setThreshold (indexOf (VStr s)) w).
Proof.
  intros Hs. unfold setLevel.
  assert (Ht : truthy (VStr s) = true).
  { cbn. destruct (String.eqb s EmptyString) eqn:E; [| reflexivity].
    apply String.eqb_eq in E. subst s. destruct (empty_not_level Hs). }
  rewrite Ht. cbn [negb].
  destruct (indexFrom_elem s levels 0 ltac:(lia) Hs) as [Hle _].
  assert (B : (0 <=? indexOf (VStr s)) = true) by (cbn [indexOf]; lia).
  by rewrite B.
Qed.

(** X2: with a valid threshold, giving [setLevel] back the level it
    returned restores the threshold: [setLevel(setLevel(name))] after a
    level name leaves the threshold where it was before the two calls,
    and the second call returns that name. *)
Theorem setLevel_restore (s : string) (w : World) :
  validThreshold w -> s ∈ levels ->
  let '(previous, w1) := setLevel (VStr s) w in
  let '(returned, w2) := setLevel previous w1 in
  returned = VStr s /\ currentLevelIndex w2 = currentLevelIndex w
  /\ getLevel w2 = previous.
Proof.
  intros V Hs. rewrite (setLevel_named s w Hs).
  destruct (indexOf_levelAt (currentLevelIndex w) V) as [Ix (p & Hp & Lp)].
  unfold getLevel at 1 2. rewrite Lp, (setLevel_named p _ Hp).
  unfold getLevel, setThreshold. cbn [currentLevelIndex].
  rewrite Lp in Ix.
  split; [by apply levelAt_indexOf |]. split; [exact Ix |].
  by rewrite Ix.
Qed.

Lemma setLevel_restore_witness :
  validThreshold (initialWorld VUndefined)
  /\ "trace" ∈ levels
  /\ (let '(previous, w1) := setLevel (VStr "trace") (initialWorld VUndefined) in
      let '(returned, w2) := setLevel previous w1 in
      returned = VStr "trace"
      /\ currentLevelIndex w2 = currentLevelIndex (initialWorld VUndefined)
      /\ getLevel w2 = previous).
Proof.
  assert (V : validThreshold (initialWorld VUndefined))
    by (unfold validThreshold; cbn; lia).
  assert (Ht : "trace" ∈ levels) by (apply (bool_decide_unpack _); exact I).
  split; [exact V |]. split; [exact Ht |].
  exact (setLevel_restore "trace" (initialWorld VUndefined) V Ht).
Defined.

(** ** formatMilliseconds beyond a day *)

(** X16: the hours wrap at 24: in a zone steady at both, a count and the
    same count with whole days added render alike, so a duration of a day
    or more loses its days. *)
Theorem formatMilliseconds_wraps (zone : Zone) (ms days : Z) :
  steadyAt zone ms -> steadyAt zone (ms + days * 86400000) ->
  0 <= ms -> 0 <= days -> ms + days * 86400000 < 253402300800000 ->
  formatMilliseconds zone (ms + days * 86400000) = formatMilliseconds zone ms.
Proof.
  intros Hz Hz' Hm Hd Hb.
  rewrite !formatMilliseconds_isoTime by (assumption || lia).
  unfold isoTime, msPerDay. by rewrite Z.mod_add.
Qed.

Lemma formatMilliseconds_wraps_witness :
  steadyAt Sample.zone 3600000
  /\ steadyAt Sample.zone (3600000 + 1 * 86400000)
  /\ 0 <= 3600000 /\ 0 <= 1 /\ 3600000 + 1 * 86400000 < 253402300800000
  /\ formatMilliseconds Sample.zone 90000000
     = formatMilliseconds Sample.zone 3600000
  /\ formatMilliseconds Sample.zone 90000000 = Some "01:00:00.000".
Proof.
  assert (Hz : steadyAt Sample.zone 3600000) by (split; reflexivity).
  assert (Hz' : steadyAt Sample.zone (3600000 + 1 * 86400000))
    by (split; reflexivity).
  split; [exact Hz |]. split; [exact Hz' |].
  split; [lia |]. split; [lia |]. split; [lia |].
  split; [| reflexivity].
  exact (formatMilliseconds_wraps Sample.zone 3600000 1 Hz Hz'
           ltac:(lia) ltac:(lia) ltac:(lia)).
Defined.

(** X17: every text [formatMilliseconds] returns, in any zone and for any
    count, has 12 characters; it throws exactly when the date the count
    leads to is out of the range of Date, which in a zone steady at the
    count is a count beyond 8640000000000000 ms either way. *)
Theorem formatMilliseconds_total (zone : Zone) (ms : Z) :
  (forall text, formatMilliseconds zone ms = Some text ->
     String.length text = 12%nat)
  /\ (formatMilliseconds zone ms = None <-> setMilliseconds zone 0 ms = None)
  /\ (steadyAt zone ms ->
      (formatMilliseconds zone ms = None <-> 8640000000000000 < Z.abs ms)).
Proof.
  assert (L : forall t text,
             String.substring 11 12 <$> toISOString t = Some text ->
             String.length text = 12%nat).
  { intros t text. unfold toISOString.
    destruct (Z.abs t <=? 8640000000000000); [| discriminate].
    destruct (civilFromDays (t / msPerDay)) as [[y m] d].
    cbn [fmap option_fmap option_map].
    intros [= <-]. unfold isoYear.
    destruct ((0 <=? y) && (y <=? 9999)); [reflexivity |].
    destruct (y <? 0); reflexivity. }
  assert (N : forall t, setMilliseconds zone 0 ms = Some t ->
             String.substring 11 12 <$> toISOString t <> None).
  { intros t Ht. unfold setMilliseconds, TimeClip in Ht.
    match type of Ht with
    | (if ?c then _ else _) = _ => destruct c eqn:R; [| discriminate]
    end.
    injection Ht as <-. unfold toISOString. rewrite R.
    destruct (civilFromDays _) as [[y m] d]. discriminate. }
  assert (T : formatMilliseconds zone ms = None
              <-> setMilliseconds zone 0 ms = None).
  { unfold formatMilliseconds.
    destruct (setMilliseconds zone 0 ms) as [t|] eqn:E.
    - split; [intros H; by destruct (N t eq_refl) | discriminate].
    - split; reflexivity. }
  split; [| split].
  - unfold formatMilliseconds.
    destruct (setMilliseconds zone 0 ms) as [t|]; [apply L | discriminate].
  - exact T.
  - intros Hz. rewrite T, (setMilliseconds_steady zone ms Hz).
    unfold TimeClip.
    destruct (Z.abs ms <=? 8640000000000000) eqn:R.
    + split; [discriminate | lia].
    + split; [lia | reflexivity].
Qed.

(** ** What a call changes *)

Section Frames.

Variable v4 : nat -> string.
Variable errorStack : nat -> option string.
Variable transport : nat -> Delivery -> Settled.
Variable numberToString : Z -> string.
Variable zone : Zone.

Local Abbreviation write' := (write v4 errorStack transport).
Local Abbreviation route' := (route transport).
Local Abbreviation writeTimeEnd' :=
  (writeTimeEnd v4 errorStack transport numberToString zone).
Local Abbreviation call' := (call v4 errorStack transport numberToString zone).
Local Abbreviation calls' := (calls v4 errorStack transport numberToString zone).
Local Abbreviation admitted li lg w :=
  ((currentLevelIndex w <=? li) || isTransient lg).

(** The three ways of lines 309-319. *)
Lemma route_cases (li : Z) (r : gmap string Value) (lg lg' : Logger)
    (w w' : World) (outcome : Settled) :
  route' li r lg w = (outcome, lg', w') ->
  ((logCollector lg = None \/ isTransientTriggered lg = true)
   /\ lg' = lg /\ w' = addDelivery (Single (VObj r) (tag lg)) w)
  \/ (exists c,
        logCollector lg = Some c /\ isTransientTriggered lg = false
        /\ li < currentLevelIndex w
        /\ lg' = setLogCollector (Some (c ++ [VObj r])) lg /\ w' = w)
  \/ (exists c,
        logCollector lg = Some c /\ isTransientTriggered lg = false
        /\ currentLevelIndex w <= li
        /\ w' = addDelivery (Batch (c ++ [VObj r]) (tag lg)) w
        /\ (lg' = setLogCollector None
                    (setTriggered (setLogCollector (Some (c ++ [VObj r])) lg))
            \/ lg' = setTriggered
                       (setLogCollector (Some (c ++ [VObj r])) lg))).
Proof.
  unfold route, deliver. intros H.
  destruct (logCollector lg) as [c|] eqn:C.
  - destruct (isTransientTriggered lg) eqn:T; cbn [negb] in H.
    + injection H as _ <- <-. left. split; [by right | done].
    + destruct (currentLevelIndex w <=? li) eqn:L.
      * right; right. exists c.
        destruct (transport _ _); injection H as _ <- <-;
          (split; [done |]); (split; [done |]); (split; [lia |]);
          (split; [done |]); [by left | by right].
      * injection H as _ <- <-. right; left. exists c.
        split; [done |]. split; [done |]. split; [lia | done].
  - injection H as _ <- <-. left. split; [by left | done].
Qed.

(** A [write] changes nothing but the console, or sends a reply and then
    stops or throws, or hands a record tagged with the level to the
    routing. *)
Lemma write_cases (li : Z) (logData : Value)
    (response : option ResponseWrapper) (lg lg' : Logger) (w w' : World)
    (outcome : Settled) :
  write' li logData response lg w = (outcome, lg', w') ->
  (lg' = lg /\ deliveries w' = deliveries w
   /\ currentLevelIndex w' = currentLevelIndex w)
  \/ (exists r w1,
        route' li r lg w1 = (outcome, lg', w')
        /\ deliveries w1 = deliveries w
        /\ currentLevelIndex w1 = currentLevelIndex w
        /\ r !! "level" = Some (levelAt li)).
Proof.
  intros H. destruct (isObject logData) eqn:O.
  - destruct logData as [| | | | | |ev|]; try discriminate.
    destruct (sendErrorId v4 response
                (spread (presets lg) (delete "req" ev)) w) as [o1 w1] eqn:Sd.
    destruct (sendErrorId_world _ _ _ _ _ _ Sd) as (Lv & Dl & _).
    destruct (admitted li lg w) eqn:A.
    + rewrite (write_admitted _ _ _ _ _ _ _ _ _ _ A Sd) in H.
      destruct (enrich errorStack li (getProp ev "req") o1 (errorsMade w))
        as [[r|e] n] eqn:E.
      * right. exists r. eexists. split; [exact H |].
        split; [exact Dl |]. split; [exact Lv |].
        exact (enrich_level _ _ _ _ _ _ _ E).
      * injection H as _ <- <-. left. by repeat split.
    + rewrite (write_dropped _ _ _ _ _ _ _ _ A), Sd in H.
      injection H as _ <- <-. left. by repeat split.
  - rewrite (write_not_object _ _ _ _ _ _ _ _ O) in H.
    injection H as _ <- <-. left. by repeat split.
Qed.

(** What a [write] leaves alone. *)
Lemma write_untouched (li : Z) (logData : Value)
    (response : option ResponseWrapper) (lg lg' : Logger) (w w' : World)
    (outcome : Settled) :
  write' li logData response lg w = (outcome, lg', w') ->
  presets lg' = presets lg /\ tag lg' = tag lg /\ timers lg' = timers lg
  /\ isTransient lg' = isTransient lg
  /\ currentLevelIndex w' = currentLevelIndex w
  /\ (logCollector lg = None -> logCollector lg' = None)
  /\ (isTransientTriggered lg = true -> isTransientTriggered lg' = true).
Proof.
  intros H. apply write_cases in H as [(-> & _ & L) | (r & w1 & R & _ & L & _)].
  - by repeat split.
  - apply route_cases in R
      as [(_ & -> & ->) | [(c & C & T & _ & -> & ->) | (c & C & T & _ & -> & Hl)]].
    + by repeat split.
    + repeat split; try done; congruence.
    + destruct Hl as [-> | ->]; repeat split; try done; congruence.
Qed.


Lemma accountedFor_sent (lg : Logger) (w : World) (d : Delivery)
    (pending : list Value) :
  concat (records <$> deliveries (addDelivery d w)) ++ pending
  = concat (records <$> deliveries w) ++ records d ++ pending.
Proof.
  cbn [addDelivery deliveries]. rewrite fmap_app, concat_app. cbn.
  by rewrite app_nil_r, <- app_assoc.
Qed.

(** X8: no record is lost, sent twice or reordered by buffering: the
    records delivered so far followed by those waiting in the buffer are,
    after a [write], what they were before, with at most one record added
    at the end, tagged with the level of the call; for an admitted
    event with [err] an Error or falsy exactly one is added. *)
Theorem write_accounts (li : Z) (logData : Value)
    (response : option ResponseWrapper) (lg lg' : Logger) (w w' : World)
    (outcome : Settled) :
  write' li logData response lg w = (outcome, lg', w') ->
  (accountedFor lg' w' = accountedFor lg w
   \/ exists r, accountedFor lg' w' = accountedFor lg w ++ [VObj r]
                /\ r !! "level" = Some (levelAt li))
  /\ (forall ev, logData = VObj ev -> admitted li lg w = true ->
      errTyped (getProp (spread (presets lg) ev) "err") = true ->
      exists r, accountedFor lg' w' = accountedFor lg w ++ [VObj r]).
Proof.
  intros H.
  assert (Routed : forall r w1, route' li r lg w1 = (outcome, lg', w') ->
            deliveries w1 = deliveries w ->
            accountedFor lg' w' = accountedFor lg w ++ [VObj r]).
  { intros r w1 R Dl. unfold accountedFor.
    apply route_cases in R
      as [(Cs & -> & ->) | [(c & C & T & _ & -> & ->) | (c & C & T & _ & -> & Hl)]].
    - rewrite accountedFor_sent, Dl by exact lg.
      destruct Cs as [C|T]; [rewrite C | rewrite T];
        destruct (isTransientTriggered lg); cbn; by rewrite ?app_nil_r.
    - cbn [setLogCollector isTransientTriggered logCollector].
      rewrite T, C, Dl. cbn. by rewrite app_assoc.
    - rewrite T, C. cbn [default].
      assert (E : isTransientTriggered lg' = true) by (by destruct Hl as [-> | ->]).
      rewrite E, accountedFor_sent, Dl by exact lg. cbn [records].
      by rewrite !app_nil_r, app_assoc. }
  split.
  - destruct (write_cases _ _ _ _ _ _ _ _ H)
      as [(-> & Dl & _) | (r & w1 & R & Dl & _ & Lv)].
    + left. unfold accountedFor. by rewrite Dl.
    + right. exists r. split; [exact (Routed r w1 R Dl) | exact Lv].
  - intros ev -> A Ty.
    destruct (sendErrorId v4 response
                (spread (presets lg) (delete "req" ev)) w) as [o1 w1] eqn:Sd.
    destruct (write_routes v4 errorStack transport _ _ _ _ _ _ _ A Ty Sd)
      as (r & n & _ & W).
    rewrite W in H. exists r. apply (Routed r _ H).
    by destruct (sendErrorId_world _ _ _ _ _ _ Sd) as (_ & Dl & _).
Qed.

End Frames.

(** ** Runs of calls *)

Section Runs.

Variable v4 : nat -> string.
Variable errorStack : nat -> option string.
Variable transport : nat -> Delivery -> Settled.
Variable numberToString : Z -> string.
Variable zone : Zone.

Local Abbreviation write' := (write v4 errorStack transport).
Local Abbreviation writeTimeEnd' :=
  (writeTimeEnd v4 errorStack transport numberToString zone).
Local Abbreviation call' := (call v4 errorStack transport numberToString zone).
Local Abbreviation calls' := (calls v4 errorStack transport numberToString zone).

Lemma batches_sent (d : Delivery) (w : World) :
  batches (deliveries (addDelivery d w))
  = (batches (deliveries w) + (if isBatch d then 1 else 0))%nat.
Proof.
  unfold batches. cbn [addDelivery deliveries].
  rewrite List.filter_app, length_app. cbn. by destruct (isBatch d).
Qed.

Lemma write_flushes (li : Z) (logData : Value)
    (response : option ResponseWrapper) (lg lg' : Logger) (w w' : World)
    (outcome : Settled) :
  write' li logData response lg w = (outcome, lg', w') ->
  (batches (deliveries w') + flushesLeft lg'
   <= batches (deliveries w) + flushesLeft lg)%nat.
Proof.
  intros H.
  apply write_cases in H as [(-> & -> & _) | (r & w1 & R & <- & _ & _)];
    [done |].
  apply route_cases in R
    as [(_ & -> & ->) | [(c & C & T & _ & -> & ->) | (c & C & T & _ & -> & Hl)]].
  - rewrite batches_sent. cbn. lia.
  - unfold flushesLeft. cbn. rewrite C, T. lia.
  - rewrite batches_sent. unfold flushesLeft at 2. rewrite C, T.
    destruct Hl as [-> | ->]; cbn; lia.
Qed.

(** A [timeEnd] that returns is a [write] made in a world with the same
    deliveries and threshold. *)
Lemma writeTimeEnd_write (now : Z) (label : string)
    (level extraLogDat : Value) (lg lg' : Logger) (w w' : World)
    (outcome : Settled) :
  writeTimeEnd' now label level extraLogDat lg w = Normal (outcome, lg', w') ->
  exists logData w0,
    write' (indexOf level) logData None lg w0 = (outcome, lg', w')
    /\ deliveries w0 = deliveries w
    /\ currentLevelIndex w0 = currentLevelIndex w.
Proof.
  unfold writeTimeEnd. intros H.
  destruct (timers lg !! label);
    [destruct (formatMilliseconds _ _); [| discriminate] |];
    (destruct (truthy _); [destruct (toStr _ _); [| discriminate] |]);
    injection H as H; do 2 eexists; (split; [exact H |]); by split.
Qed.

Lemma call_flushes (c : Call) (lg lg' : Logger) (w w' : World) :
  call' c (lg, w) = (lg', w') ->
  (batches (deliveries w') + flushesLeft lg'
   <= batches (deliveries w) + flushesLeft lg)%nat.
Proof.
  destruct c as [li d rs|v|now label|now label level extra];
    unfold call; cbn [fst snd].
  - destruct (write' li d rs lg w) as [[o l1] w1] eqn:W.
    intros [= <- <-]. exact (write_flushes _ _ _ _ _ _ _ _ W).
  - intros [= <- <-]. unfold setLevel.
    destruct (negb (truthy v)); [done |]. by destruct (0 <=? indexOf v).
  - intros [= <- <-]. unfold time.
    by destruct (String.eqb label "__proto__").
  - destruct (writeTimeEnd' now label level extra lg w)
      as [[[o l1] w1]|e] eqn:W.
    + intros [= <- <-].
      destruct (writeTimeEnd_write _ _ _ _ _ _ _ _ _ W)
        as (d & w0 & W0 & Dl & _).
      rewrite <- Dl. exact (write_flushes _ _ _ _ _ _ _ _ W0).
    + by intros [= <- <-].
Qed.

(** X9: the buffer is flushed at most once: over any sequence of calls
    a Logger makes at most one batch delivery, and none at all when it
    has no buffer or has flushed it already. *)
Theorem calls_flush_once (cs : list Call) (lg : Logger) (w : World) :
  (batches (deliveries (calls' cs (lg, w)).2)
   <= batches (deliveries w) + flushesLeft lg)%nat
  /\ (flushesLeft lg <= 1)%nat.
Proof.
  split.
  - revert lg w. induction cs as [|c cs IH]; intros lg w; [cbn; lia |].
    unfold calls. cbn [fold_left].
    destruct (call' c (lg, w)) as [lg1 w1] eqn:C.
    pose proof (call_flushes _ _ _ _ _ C). pose proof (IH lg1 w1).
    unfold calls in *. lia.
  - unfold flushesLeft. destruct (logCollector lg); [| lia].
    destruct (isTransientTriggered lg); lia.
Qed.

Lemma getInitialLogLevel_valid (laLogLevel : Value) :
  validThreshold (initialWorld laLogLevel).
Proof.
  unfold validThreshold, initialWorld, getInitialLogLevel.
  cbn [currentLevelIndex].
  destruct (includesLevel laLogLevel) eqn:I; [| cbn; lia].
  destruct laLogLevel; try discriminate. cbn [includesLevel] in I.
  apply bool_decide_eq_true_1 in I.
  destruct (indexFrom_elem s levels 0 ltac:(lia) I) as [Hle _].
  destruct (indexOf_bounds (VStr s)) as [E|E]; cbn [indexOf] in *; lia.
Qed.

Lemma call_valid (c : Call) (lg lg' : Logger) (w w' : World) :
  call' c (lg, w) = (lg', w') -> validThreshold w -> validThreshold w'.
Proof.
  unfold validThreshold.
  destruct c as [li d rs|v|now label|now label level extra];
    unfold call; cbn [fst snd].
  - destruct (write' li d rs lg w) as [[o l1] w1] eqn:W.
    intros [= <- <-].
    destruct (write_untouched _ _ _ _ _ _ _ _ _ _ _ W) as (_ & _ & _ & _ & -> & _).
    done.
  - intros [= <- <-]. apply setLevel_valid.
  - by intros [= <- <-].
  - destruct (writeTimeEnd' now label level extra lg w)
      as [[[o l1] w1]|e] eqn:W.
    + intros [= <- <-].
      destruct (writeTimeEnd_write _ _ _ _ _ _ _ _ _ W)
        as (d & w0 & W0 & _ & <-).
      destruct (write_untouched _ _ _ _ _ _ _ _ _ _ _ W0)
        as (_ & _ & _ & _ & -> & _).
      done.
    + by intros [= <- <-].
Qed.

(** X1: the threshold is always the index of a level: it is one when the
    process starts, whatever [LALOG_LEVEL] holds, and every sequence of
    calls keeps it one, so that [getLevel] always answers one of the six
    level names. *)
Theorem threshold_always_valid (laLogLevel : Value) (cs : list Call)
    (lg : Logger) :
  let w := (calls' cs (lg, initialWorld laLogLevel)).2 in
  validThreshold w /\ exists s, s ∈ levels /\ getLevel w = VStr s.
Proof.
  cbv zeta.
  assert (V : forall cs lg w, validThreshold w ->
                validThreshold (calls' cs (lg, w)).2).
  { clear. intros cs. induction cs as [|c cs IH]; intros lg w Hw; [done |].
    unfold calls. cbn [fold_left].
    destruct (call' c (lg, w)) as [lg1 w1] eqn:C.
    apply (IH lg1 w1). exact (call_valid _ _ _ _ _ C Hw). }
  pose proof (V cs lg _ (getInitialLogLevel_valid laLogLevel)) as Hv.
  split; [exact Hv |].
  destruct (indexOf_levelAt _ Hv) as [_ (s & Hs & E)]. by exists s.
Qed.

End Runs.

(** ** The constructor, the level methods and the record in detail *)

Lemma parseReq_fields (req : Value) :
  exists o,
    parseReq req = VObj o
    /\ forall k, o !! k = if bool_decide (k ∈ reqFields)
                          then Some (propOf req k) else None.
Proof.
  eexists. split; [reflexivity |]. intros k. case_bool_decide as Hk.
  - unfold reqFields in Hk. rewrite !elem_of_cons, elem_of_nil in Hk.
    destruct Hk as [->|[->|[->|[->|[->|[->|[->|[->|[]]]]]]]]]; by keys.
  - unfold reqFields in Hk. rewrite !not_elem_of_cons in Hk.
    destruct Hk as (K1 & K2 & K3 & K4 & K5 & K6 & K7 & K8 & _).
    rewrite !lookup_insert_ne by congruence. apply lookup_empty.
Qed.

Lemma spread_deleted (p ev : gmap string Value) (k : string) :
  spread p (delete k ev) !! k = p !! k.
Proof.
  unfold spread. rewrite lookup_union_r; [done |]. apply lookup_delete_eq.
Qed.

Section Details.

Variable v4 : nat -> string.
Variable errorStack : nat -> option string.
Variable NODE_ENV : option string.
Variable transport : nat -> Delivery -> Settled.
Variable numberToString : Z -> string.
Variable zone : Zone.

Local Abbreviation write' := (write v4 errorStack transport).
Local Abbreviation route' := (route transport).
Local Abbreviation writeTimeEnd' :=
  (writeTimeEnd v4 errorStack transport numberToString zone).
Local Abbreviation create' := (create v4 NODE_ENV).
Local Abbreviation methods' := (methods v4 errorStack transport).
Local Abbreviation admitted li lg w :=
  ((currentLevelIndex w <=? li) || isTransient lg).

(** X10: in the record of an admitted event, a truthy [req] of the event
    is replaced by its projection on the eight request fields, every
    other property of it being dropped; a falsy [req] of the event is
    left out, so that the record has the [req] of the presets, if any. *)
Theorem write_req_projection (li : Z) (ev : gmap string Value)
    (response : option ResponseWrapper) (lg : Logger) (w : World) :
  admitted li lg w = true ->
  errTyped (getProp (spread (presets lg) ev) "err") = true ->
  exists r w1,
    write' li (VObj ev) response lg w = route' li r lg w1
    /\ (truthy (getProp ev "req") = true ->
        exists o,
          r !! "req" = Some (VObj o)
          /\ forall k, o !! k = if bool_decide (k ∈ reqFields)
                                then Some (propOf (getProp ev "req") k)
                                else None)
    /\ (truthy (getProp ev "req") = false ->
        r !! "req" = presets lg !! "req").
Proof.
  intros A Ty.
  destruct (sendErrorId v4 response
              (spread (presets lg) (delete "req" ev)) w) as [o1 w1] eqn:Sd.
  destruct (write_routes v4 errorStack transport _ _ _ _ _ _ _ A Ty Sd)
    as (r & n & E & ->).
  exists r. eexists. split; [reflexivity |].
  apply enrich_inv in E as (o2 & n1 & r1 & Im & U & ->).
  unfold attachReq. split.
  - intros T. rewrite T.
    destruct (parseReq_fields (getProp ev "req")) as (o & -> & Ho).
    exists o. split; [by keys | exact Ho].
  - intros T. rewrite T.
    rewrite (unpackErr_other _ _ _ _ _ "req" U) by done.
    rewrite (implicitErr_other _ _ _ _ _ _ "req" Im) by done.
    rewrite lookup_insert_ne by done.
    rewrite (sendErrorId_other _ _ _ _ _ _ "req" Sd) by done.
    apply spread_deleted.
Qed.

(** X11: a truthy [msg] is never replaced: the record of an admitted
    event keeps the [msg] of the merged presets and event whenever that
    is truthy, also when an [err] with its own message is supplied. *)
Theorem write_msg_kept (li : Z) (ev : gmap string Value)
    (response : option ResponseWrapper) (lg : Logger) (w : World) :
  admitted li lg w = true ->
  errTyped (getProp (spread (presets lg) ev) "err") = true ->
  truthy (getProp (spread (presets lg) ev) "msg") = true ->
  exists r w1,
    write' li (VObj ev) response lg w = route' li r lg w1
    /\ r !! "msg" = spread (presets lg) ev !! "msg".
Proof.
  intros A Ty M.
  destruct (sendErrorId v4 response
              (spread (presets lg) (delete "req" ev)) w) as [o1 w1] eqn:Sd.
  destruct (write_routes v4 errorStack transport _ _ _ _ _ _ _ A Ty Sd)
    as (r & n & E & ->).
  exists r. eexists. split; [reflexivity |].
  assert (K : o1 !! "msg" = spread (presets lg) ev !! "msg").
  { rewrite (sendErrorId_other _ _ _ _ _ _ "msg" Sd) by done.
    by apply spread_lookup_ne. }
  rewrite (enrich_msg _ _ _ _ _ _ _ E); [exact K |].
  unfold getProp in *. by rewrite K.
Qed.

(** X12: an [err] that is a plain object without a truthy [stack], made
    by hand, is treated like an Error: the stack is captured during the
    call, [fullStack] and [shortStack] are made from it, [msg] is the
    [message] of the object when the event has no truthy [msg], and
    [err] is deleted. *)
Theorem write_err_object (li : Z) (ev f : gmap string Value)
    (response : option ResponseWrapper) (lg : Logger) (w : World) :
  admitted li lg w = true ->
  getProp (spread (presets lg) ev) "err" = VObj f ->
  truthy (getProp f "stack") = false ->
  let stack := default "<no error stack>" (errorStack (errorsMade w)) in
  exists r w1,
    write' li (VObj ev) response lg w = route' li r lg w1
    /\ r !! "fullStack" = Some (VArr (VStr <$> tail (splitLines stack)))
    /\ r !! "shortStack"
       = Some (VArr (VStr <$> List.filter hasNodeModules
                                (tail (splitLines stack))))
    /\ (truthy (getProp (spread (presets lg) ev) "msg") = false ->
        r !! "msg" = Some (getProp f "message"))
    /\ r !! "err" = None.
Proof.
  intros A E Fs stack.
  destruct (sendErrorId v4 response
              (spread (presets lg) (delete "req" ev)) w) as [o1 w1] eqn:Sd.
  assert (P : forall k, k <> "errorId" -> k <> "req" ->
                getProp o1 k = getProp (spread (presets lg) ev) k).
  { intros k K1 K2. unfold getProp.
    rewrite (sendErrorId_other _ _ _ _ _ _ k Sd) by done.
    by rewrite spread_lookup_ne. }
  rewrite (write_admitted _ _ _ _ _ _ _ _ _ _ A Sd). unfold enrich.
  set (o2 := <["level" := levelAt li]> o1).
  assert (P2 : forall k, k <> "level" -> getProp o2 k = getProp o1 k)
    by (intros k K; apply getProp_insert_ne; congruence).
  assert (E2 : getProp o2 "err" = VObj f) by (by rewrite P2, P).
  unfold implicitErr. rewrite E2. change (truthy (VObj f)) with true.
  rewrite andb_false_r. unfold unpackErr, ensureStack. rewrite E2.
  change (truthy (VObj f)) with true. cbv iota.
  change (propOf (VObj f) "stack") with (getProp f "stack"). rewrite Fs.
  change (canSetProp (VObj f)) with true. cbv iota.
  rewrite !getProp_insert_ne, P2, P by congruence.
  fold stack.
  destruct (truthy (getProp (spread (presets lg) ev) "msg"));
    do 2 eexists; (split; [reflexivity |]);
    rewrite !attachReq_other by done;
    repeat split; try discriminate; by keys.
Qed.

(** X13: an [err] that is a truthy primitive (a string, a number, a
    boolean) has no [stack] and cannot be given one: an admitted [write]
    rejects with a TypeError, delivers and buffers nothing. *)
Theorem write_err_primitive (li : Z) (ev : gmap string Value)
    (response : option ResponseWrapper) (lg : Logger) (w : World) :
  admitted li lg w = true ->
  truthyPrimitive (getProp (spread (presets lg) ev) "err") = true ->
  exists w',
    write' li (VObj ev) response lg w = (Rejected typeError, lg, w')
    /\ deliveries w' = deliveries w.
Proof.
  intros A Tp.
  destruct (sendErrorId v4 response
              (spread (presets lg) (delete "req" ev)) w) as [o1 w1] eqn:Sd.
  destruct (sendErrorId_world _ _ _ _ _ _ Sd) as (_ & Dl & _).
  assert (E1 : getProp o1 "err" = getProp (spread (presets lg) ev) "err").
  { unfold getProp. rewrite (sendErrorId_other _ _ _ _ _ _ "err" Sd) by done.
    by rewrite spread_lookup_ne. }
  rewrite (write_admitted _ _ _ _ _ _ _ _ _ _ A Sd). unfold enrich.
  set (o2 := <["level" := levelAt li]> o1).
  assert (E2 : getProp o2 "err" = getProp (spread (presets lg) ev) "err")
    by (subst o2; rewrite getProp_insert_ne by congruence; exact E1).
  set (err := getProp (spread (presets lg) ev) "err") in *.
  assert (Facts : truthy err = true /\ propOf err "stack" = VUndefined
                  /\ canSetProp err = false)
    by (destruct err; try discriminate; by repeat split).
  destruct Facts as (T & St & Cs).
  unfold implicitErr. rewrite E2, T, andb_false_r.
  unfold unpackErr, ensureStack. rewrite E2, T, St, Cs. cbn.
  eexists. split; [reflexivity | exact Dl].
Qed.

(** X6: the six level methods are named after [allLevels], in order,
    and the method at position [i] is [write] at level index [i]: the
    record it makes of an admitted event has its name as [level]. *)
Theorem methods_by_level (i : nat) (name : string) (m : LogFunction) :
  methods' !! i = Some (name, m) ->
  allLevels !! i = Some name
  /\ m = write' (Z.of_nat i)
  /\ forall ev response lg w,
       admitted (Z.of_nat i) lg w = true ->
       errTyped (getProp (spread (presets lg) ev) "err") = true ->
       exists r w1,
         m (VObj ev) response lg w = route' (Z.of_nat i) r lg w1
         /\ r !! "level" = Some (VStr name).
Proof.
  intros H.
  assert (Core : allLevels !! i = Some name /\ m = write' (Z.of_nat i)
                 /\ levelAt (Z.of_nat i) = VStr name).
  { do 6 (destruct i as [|i]; [injection H as <- <-; by repeat split |]).
    discriminate. }
  destruct Core as (L & -> & Lv). split; [exact L |]. split; [reflexivity |].
  intros ev response lg w A Ty.
  destruct (sendErrorId v4 response
              (spread (presets lg) (delete "req" ev)) w) as [o1 w1] eqn:Sd.
  destruct (write_routes v4 errorStack transport _ _ _ _ _ _ _ A Ty Sd)
    as (r & n & E & ->).
  exists r. eexists. split; [reflexivity |].
  rewrite <- Lv. exact (enrich_level _ _ _ _ _ _ _ E).
Qed.

(** X15: [timeEnd] with a level that is not one of the six names calls
    [write] at index -1: on a Logger that is not transient nothing is
    delivered, whatever the threshold, and the call resolves with
    nothing. *)
Theorem timeEnd_unknown_level (now : Z) (label : string)
    (level extraLogDat : Value) (lg lg' : Logger) (w w' : World)
    (outcome : Settled) :
  (forall s, s ∈ levels -> level <> VStr s) ->
  isTransient lg = false -> 0 <= currentLevelIndex w ->
  writeTimeEnd' now label level extraLogDat lg w = Normal (outcome, lg', w') ->
  outcome = Fulfilled VUndefined /\ lg' = lg /\ deliveries w' = deliveries w.
Proof.
  intros Hn Nt V H.
  assert (Ix : indexOf level = -1).
  { destruct level; try reflexivity. cbn [indexOf].
    apply indexFrom_not_elem. intros Hin. exact (Hn _ Hin eq_refl). }
  unfold writeTimeEnd in H. rewrite Ix in H.
  destruct (timers lg !! label);
    [destruct (formatMilliseconds _ _); [| discriminate] |];
    (destruct (truthy _); [destruct (toStr _ _); [| discriminate] |]);
    injection H as H;
    rewrite write_dropped in H
      by (cbn [setErrorsMade currentLevelIndex]; rewrite Nt; lia);
    by injection H as <- <- <-.
Qed.

(** X14: [time] then [timeEnd] for the same label, in a zone steady at
    the time elapsed and with a [msg] that, when truthy, converts to a
    string: whatever the label held before, the record handed to [write]
    has as [duration] the time elapsed between the two calls, rendered
    as hours, minutes, seconds and milliseconds, and no Error is
    constructed. *)
Theorem time_timeEnd (start finish : Z) (label : string)
    (level extraLogDat : Value) (text : string) (lg : Logger) (w : World) :
  label <> "__proto__" ->
  0 <= finish - start < 253402300800000 ->
  steadyAt zone (finish - start) ->
  let extra := if truthy extraLogDat then extraLogDat else VObj ∅ in
  (truthy (propOf extra "msg") = true ->
   toStr numberToString (propOf extra "msg") = Normal text) ->
  let elapsed := finish - start in
  let started := time start label lg in
  exists logData,
    writeTimeEnd' finish label level extraLogDat started w
    = Normal (write' (indexOf level) (VObj logData) None started w)
    /\ logData !! "duration"
       = Some (VStr (pad2 (elapsed / 3600000 mod 24) +:+ ":"
                     +:+ pad2 (elapsed / 60000 mod 60) +:+ ":"
                     +:+ pad2 (elapsed / 1000 mod 60) +:+ "."
                     +:+ pad3 (elapsed mod 1000)))
    /\ logData !! "timerLabel" = Some (VStr label).
Proof.
  intros Hl Hr Hz extra Conv elapsed started.
  assert (T : timers started !! label = Some start).
  { subst started. unfold time.
    destruct (String.eqb label "__proto__") eqn:E;
      [by apply String.eqb_eq in E |].
    cbn [setTimers timers]. apply lookup_insert_eq. }
  unfold writeTimeEnd. rewrite T.
  rewrite (formatMilliseconds_isoTime _ _ Hz Hr), isoTime_fields.
  fold extra.
  destruct (truthy (propOf extra "msg")) eqn:Tm.
  - rewrite (Conv eq_refl).
    eexists. split; [reflexivity |]. split; by keys.
  - eexists. split; [reflexivity |]. split; by keys.
Qed.

(** X4: the presets of a new Logger are [module], set to the module
    name, overlaid with the presets given: a [module] among them wins
    over the module name, every other property of them is kept, and
    presets that are not an object are ignored.  The tag is the service
    name, a dash and [NODE_ENV]. *)
Theorem create_presets (options : LaLogOptions) (w : World) :
  let given := if isObject (opt_presets options)
               then ownProps (opt_presets options) else ∅ in
  let lg := (create' options w).1 in
  presets lg !! "module"
  = Some (default (optStr (opt_moduleName options)) (given !! "module"))
  /\ (forall k, k <> "module" -> k <> "trackId" ->
        presets lg !! k = given !! k)
  /\ (isObject (opt_presets options) = false ->
      forall k, k <> "module" -> k <> "trackId" -> presets lg !! k = None)
  /\ tag lg = optText (opt_serviceName options) +:+ "-"
              +:+ optText NODE_ENV.
Proof.
  cbv zeta. unfold create.
  set (given := if isObject (opt_presets options)
                then ownProps (opt_presets options) else ∅).
  assert (M : forall k, k <> "module" ->
            spread {["module" := optStr (opt_moduleName options)]} given !! k
            = given !! k).
  { intros k K. unfold spread. rewrite lookup_union.
    rewrite lookup_singleton_ne by done. by destruct (given !! k). }
  assert (Md : spread {["module" := optStr (opt_moduleName options)]} given
               !! "module"
               = Some (default (optStr (opt_moduleName options))
                         (given !! "module"))).
  { unfold spread. rewrite lookup_union, lookup_singleton_eq.
    by destruct (given !! "module"). }
  assert (G : isObject (opt_presets options) = false -> given = ∅)
    by (intros O; subst given; by rewrite O).
  destruct (opt_addTrackId options && _); cbn [fst presets tag];
    (split; [by keys |]);
    (split; [intros k K1 K2; keys; by apply M |]);
    (split; [| reflexivity]);
    intros O k K1 K2; keys; rewrite M by done; by rewrite (G O).
Qed.

(** X5: a new Logger gets a generated [trackId] exactly when one is
    asked for and the presets given hold no truthy one; otherwise no
    identifier is drawn and the world is left as it is. *)
Theorem create_trackId (options : LaLogOptions) (w : World) :
  let given := if isObject (opt_presets options)
               then ownProps (opt_presets options) else ∅ in
  let '(lg, w') := create' options w in
  (opt_addTrackId options = true ->
   truthy (getProp given "trackId") = false ->
   presets lg !! "trackId" = Some (VStr (v4 (uuids w)))
   /\ uuids w' = S (uuids w))
  /\ (opt_addTrackId options = false
      \/ truthy (getProp given "trackId") = true ->
      presets lg !! "trackId" = given !! "trackId" /\ w' = w).
Proof.
  cbv zeta. unfold create.
  set (given := if isObject (opt_presets options)
                then ownProps (opt_presets options) else ∅).
  assert (M : spread {["module" := optStr (opt_moduleName options)]} given
              !! "trackId" = given !! "trackId").
  { unfold spread. rewrite lookup_union.
    rewrite lookup_singleton_ne by done. by destruct (given !! "trackId"). }
  assert (G : getProp
                (spread {["module" := optStr (opt_moduleName options)]} given)
                "trackId" = getProp given "trackId")
    by (unfold getProp; by rewrite M).
  rewrite G.
  destruct (opt_addTrackId options);
    destruct (truthy (getProp given "trackId")); cbn [andb negb]; split.
  - intros _ F. discriminate F.
  - intros _. split; [exact M | reflexivity].
  - intros _ _. split; [cbn [presets]; by keys | reflexivity].
  - intros [F|F]; discriminate F.
  - intros F. discriminate F.
  - intros _. split; [exact M | reflexivity].
  - intros F. discriminate F.
  - intros _. split; [exact M | reflexivity].
Qed.

End Details.



Lemma write_accounts_witness :
  (currentLevelIndex Sample.afterInfo.2 <=? 3)
  || isTransient Sample.afterInfo.1.2 = true
  /\ exists r,
       accountedFor Sample.afterError.1.2 Sample.afterError.2
       = accountedFor Sample.afterInfo.1.2 Sample.afterInfo.2 ++ [VObj r].
Proof.
  assert (A : (currentLevelIndex Sample.afterInfo.2 <=? 3)
              || isTransient Sample.afterInfo.1.2 = true)
    by (vm_compute; reflexivity).
  split; [exact A |].
  destruct (write_accounts Sample.v4 Sample.errorStack Sample.transport 3
              (VObj (Sample.message "failed")) None
              Sample.afterInfo.1.2 Sample.afterError.1.2
              Sample.afterInfo.2 Sample.afterError.2 Sample.afterError.1.1)
    as [_ Added].
  - vm_compute. reflexivity.
  - apply (Added (Sample.message "failed") eq_refl A).
    vm_compute. reflexivity.
Defined.

Lemma write_req_projection_witness :
  let req := VObj (<["socket" := VNum 1]> (<["url" := VStr "/pay"]> ∅)) in
  let ev := <["req" := req]> (Sample.message "paid") in
  (currentLevelIndex Sample.plain.2 <=? 3) || isTransient Sample.plain.1 = true
  /\ truthy (getProp ev "req") = true
  /\ exists r w1 o,
       Sample.write 3 (VObj ev) None Sample.plain.1 Sample.plain.2
       = route Sample.transport 3 r Sample.plain.1 w1
       /\ r !! "req" = Some (VObj o)
       /\ o !! "url" = Some (VStr "/pay")
       /\ o !! "socket" = None.
Proof.
  cbv zeta.
  set (ev := <["req" := VObj (<["socket" := VNum 1]>
                                (<["url" := VStr "/pay"]> ∅))]>
               (Sample.message "paid")).
  assert (A : (currentLevelIndex Sample.plain.2 <=? 3)
              || isTransient Sample.plain.1 = true) by (vm_compute; reflexivity).
  assert (T : truthy (getProp ev "req") = true) by (vm_compute; reflexivity).
  split; [exact A |]. split; [exact T |].
  destruct (write_req_projection Sample.v4 Sample.errorStack Sample.transport
              3 ev None Sample.plain.1 Sample.plain.2 A)
    as (r & w1 & W & Proj & _); [vm_compute; reflexivity |].
  destruct (Proj T) as (o & R & Ho).
  exists r, w1, o. split; [exact W |]. split; [exact R |].
  split; [exact (Ho "url") | exact (Ho "socket")].
Defined.

Lemma write_msg_kept_witness :
  let ev := <["err" := VError "boom" (Some Sample.stackTrace)]>
              (Sample.message "payment failed") in
  truthy (getProp (spread (presets Sample.plain.1) ev) "msg") = true
  /\ exists r w1,
       Sample.write 3 (VObj ev) None Sample.plain.1 Sample.plain.2
       = route Sample.transport 3 r Sample.plain.1 w1
       /\ r !! "msg" = spread (presets Sample.plain.1) ev !! "msg".
Proof.
  cbv zeta.
  set (ev := <["err" := VError "boom" (Some Sample.stackTrace)]>
               (Sample.message "payment failed")).
  assert (M : truthy (getProp (spread (presets Sample.plain.1) ev) "msg") = true)
    by (vm_compute; reflexivity).
  split; [exact M |].
  apply (write_msg_kept Sample.v4 Sample.errorStack Sample.transport
           3 ev None Sample.plain.1 Sample.plain.2);
    [vm_compute; reflexivity | vm_compute; reflexivity | exact M].
Defined.

Lemma write_err_object_witness :
  let f : gmap string Value := <["message" := VStr "timeout"]> ∅ in
  let ev : gmap string Value := <["err" := VObj f]> ∅ in
  getProp (spread (presets Sample.plain.1) ev) "err" = VObj f
  /\ truthy (getProp f "stack") = false
  /\ exists r w1,
       Sample.write 3 (VObj ev) None Sample.plain.1 Sample.plain.2
       = route Sample.transport 3 r Sample.plain.1 w1
       /\ r !! "msg" = Some (getProp f "message")
       /\ r !! "err" = None.
Proof.
  cbv zeta.
  set (f := (<["message" := VStr "timeout"]> ∅ : gmap string Value)).
  set (ev := (<["err" := VObj f]> ∅ : gmap string Value)).
  assert (E : getProp (spread (presets Sample.plain.1) ev) "err" = VObj f)
    by (vm_compute; reflexivity).
  assert (S0 : truthy (getProp f "stack") = false) by (vm_compute; reflexivity).
  split; [exact E |]. split; [exact S0 |].
  destruct (write_err_object Sample.v4 Sample.errorStack Sample.transport
              3 ev f None Sample.plain.1 Sample.plain.2)
    as (r & w1 & W & _ & _ & Ms & Er);
    [vm_compute; reflexivity | exact E | exact S0 |].
  exists r, w1. split; [exact W |]. split; [| exact Er].
  apply Ms. vm_compute. reflexivity.
Defined.

Lemma write_err_primitive_witness :
  let ev : gmap string Value := <["err" := VStr "disk full"]> ∅ in
  truthyPrimitive (getProp (spread (presets Sample.plain.1) ev) "err") = true
  /\ exists w',
       Sample.write 3 (VObj ev) None Sample.plain.1 Sample.plain.2
       = (Rejected typeError, Sample.plain.1, w')
       /\ deliveries w' = deliveries Sample.plain.2.
Proof.
  cbv zeta. split; [vm_compute; reflexivity |].
  apply (write_err_primitive Sample.v4 Sample.errorStack Sample.transport
           3 (<["err" := VStr "disk full"]> ∅) None
           Sample.plain.1 Sample.plain.2);
    vm_compute; reflexivity.
Defined.

Lemma methods_by_level_witness :
  methods Sample.v4 Sample.errorStack Sample.transport !! 2%nat
  = Some ("warn", warn Sample.v4 Sample.errorStack Sample.transport)
  /\ allLevels !! 2%nat = Some "warn"
  /\ warn Sample.v4 Sample.errorStack Sample.transport = Sample.write 2.
Proof.
  destruct (methods_by_level Sample.v4 Sample.errorStack Sample.transport
              2 "warn" (warn Sample.v4 Sample.errorStack Sample.transport)
              eq_refl) as (L & M & _).
  split; [reflexivity |]. split; [exact L | exact M].
Defined.

Lemma timeEnd_unknown_level_witness :
  isTransient Sample.plain.1 = false
  /\ 0 <= currentLevelIndex Sample.verbose
  /\ exists outcome lg' w',
       Sample.writeTimeEnd 0 "job" (VStr "verbose") VUndefined
         Sample.plain.1 Sample.verbose
       = Normal (outcome, lg', w')
       /\ outcome = Fulfilled VUndefined /\ lg' = Sample.plain.1
       /\ deliveries w' = deliveries Sample.verbose.
Proof.
  split; [reflexivity |]. split; [vm_compute; discriminate |].
  destruct (Sample.writeTimeEnd 0 "job" (VStr "verbose") VUndefined
              Sample.plain.1 Sample.verbose) as [[[o lg'] w']|e] eqn:W;
    [| vm_compute in W; discriminate W].
  exists o, lg', w'. split; [reflexivity |].
  apply (timeEnd_unknown_level Sample.v4 Sample.errorStack Sample.transport
           Sample.numberToString Sample.zone 0 "job" (VStr "verbose") VUndefined Sample.plain.1 lg'
           Sample.verbose w' o).
  - intros s Hs E. injection E as <-. revert Hs.
    apply (bool_decide_unpack _). exact I.
  - reflexivity.
  - vm_compute. discriminate.
  - exact W.
Defined.

Lemma time_timeEnd_witness :
  "job" <> "__proto__"
  /\ 0 <= 1065005 - 1000000 < 253402300800000
  /\ steadyAt Sample.eastern (1065005 - 1000000)
  /\ (truthy (VStr "saved") = true ->
      toStr Sample.numberToString (VStr "saved") = Normal "saved")
  /\ exists logData,
       writeTimeEnd Sample.v4 Sample.errorStack Sample.transport
         Sample.numberToString Sample.eastern 1065005 "job" (VStr "info")
         (VObj (Sample.message "saved"))
         (time 1000000 "job" Sample.plain.1) Sample.plain.2
       = Normal
           (Sample.write 1 (VObj logData) None
              (time 1000000 "job" Sample.plain.1) Sample.plain.2)
       /\ logData !! "duration" = Some (VStr "00:01:05.005").
Proof.
  assert (N : "job" <> "__proto__") by discriminate.
  assert (Hz : steadyAt Sample.eastern (1065005 - 1000000))
    by (split; reflexivity).
  split; [exact N |]. split; [lia |]. split; [exact Hz |].
  split; [reflexivity |].
  destruct (time_timeEnd Sample.v4 Sample.errorStack Sample.transport
              Sample.numberToString Sample.eastern
              1000000 1065005 "job" (VStr "info")
              (VObj (Sample.message "saved")) "saved"
              Sample.plain.1 Sample.plain.2 N ltac:(lia) Hz
              (fun _ => eq_refl))
    as (logData & W & D & _).
  exists logData. split; [exact W | exact D].
Defined.

Lemma create_trackId_witness :
  let options := mkOptions true (Some "routes") VUndefined (Some "svc") false in
  let made := create Sample.v4 Sample.NODE_ENV options (initialWorld VUndefined) in
  opt_addTrackId options = true
  /\ presets made.1 !! "trackId" = Some (VStr (Sample.v4 0))
  /\ uuids made.2 = 1%nat.
Proof.
  cbv zeta. split; [reflexivity |].
  pose proof (create_trackId Sample.v4 Sample.NODE_ENV
                (mkOptions true (Some "routes") VUndefined (Some "svc") false)
                (initialWorld VUndefined)) as C.
  cbv zeta in C.
  destruct (create Sample.v4 Sample.NODE_ENV
              (mkOptions true (Some "routes") VUndefined (Some "svc") false)
              (initialWorld VUndefined)) as [lg w'].
  destruct C as [Made _]. exact (Made eq_refl eq_refl).
Defined.

Lemma formatMilliseconds_total_witness :
  steadyAt Sample.zone 8640000000000001
  /\ formatMilliseconds Sample.zone 8640000000000001 = None
  /\ formatMilliseconds Sample.eastern 15778800000 = Some "14:00:00.000"
  /\ String.length "14:00:00.000" = 12%nat.
Proof.
  assert (Hz : steadyAt Sample.zone 8640000000000001) by (split; reflexivity).
  destruct (formatMilliseconds_total Sample.zone 8640000000000001)
    as (_ & _ & Out).
  destruct (formatMilliseconds_total Sample.eastern 15778800000)
    as (Len & _ & _).
  split; [exact Hz |]. split; [apply (Out Hz); lia |].
  split; [vm_compute; reflexivity |].
  exact (Len "14:00:00.000" ltac:(vm_compute; reflexivity)).
Defined.

Lemma create_presets_witness :
  let given : gmap string Value :=
    <["module" := VStr "billing"]> (<["region" := VStr "eu"]> ∅) in
  let options := mkOptions false (Some "routes") (VObj given) (Some "svc") false in
  let lg := (create Sample.v4 Sample.NODE_ENV options (initialWorld VUndefined)).1 in
  presets lg !! "module" = Some (VStr "billing")
  /\ presets lg !! "region" = Some (VStr "eu")
  /\ tag lg = "svc-test"
  /\ isObject (VStr "oops") = false
  /\ presets
       (create Sample.v4 Sample.NODE_ENV
          (mkOptions false (Some "routes") (VStr "oops") (Some "svc") false)
          (initialWorld VUndefined)).1 !! "0" = None.
Proof.
  cbv zeta.
  destruct (create_presets Sample.v4 Sample.NODE_ENV
              (mkOptions false (Some "routes")
                 (VObj (<["module" := VStr "billing"]>
                          (<["region" := VStr "eu"]> ∅)))
                 (Some "svc") false) (initialWorld VUndefined))
    as (M & K & _ & T).
  destruct (create_presets Sample.v4 Sample.NODE_ENV
              (mkOptions false (Some "routes") (VStr "oops") (Some "svc") false)
              (initialWorld VUndefined)) as (_ & _ & Ign & _).
  split; [exact M |].
  split; [exact (K "region" ltac:(discriminate) ltac:(discriminate)) |].
  split; [exact T |]. split; [reflexivity |].
  exact (Ign eq_refl "0" ltac:(discriminate) ltac:(discriminate)).
Defined.
